(** * Location-inference engine of the SBI application

    A shallow embedding of [sbi_app/utils.py]: the batch pipeline
    [process_kalman_cluster_fusion] with [process_user_data],
    [get_cluster_info], [detect_anomalies], [calculate_overall_confidence]
    and [generate_location_predictions].

    Modelling conventions.
    - Python floats are exact rationals ([Q]); equality of computed numbers
      is [Qeq].
    - Instants are integers: microseconds since the epoch, in UTC.  A pandas
      [Timestamp] is an instant together with the UTC offset (in seconds) of
      the time zone it carries.
    - A data frame is the list of its rows, in index order, together with the
      set of its columns as far as it matters: only [event_type] may be
      absent from a record.  A record that lacks [event_type] while another
      record of the batch has it holds NaN in that column ([None]).
    - Exceptions are values of [Exception]; code that may raise, or that
      reads the wall clock, lives in the monad [M].
    - [timezone.now()] is a read of the wall clock: the clock is the sequence
      of its successive readings, and the state threaded through [M] counts
      the readings made so far.
    - [sklearn.cluster.DBSCAN] is an external library: its [fit_predict] is a
      parameter of the pipeline.
    - Logging and the rendering of timestamps as ISO strings are left out. *)

From Stdlib Require Import List String DecimalString ZArith QArith Qminmax.
From Stdlib Require Import Lia Lqa Bool.
Import ListNotations.

Open Scope string_scope.
Open Scope Z_scope.
Open Scope Q_scope.

(** ** Python, numpy and pandas primitives *)

Module Py.

(** The exceptions the pipeline can meet. *)
Inductive Exception : Type :=
| KeyError (key : string)
| IndexError (msg : string)
| ZeroDivisionError (msg : string)
| ValueError (msg : string).

(** [str(e)]: a [KeyError] prints the [repr] of its key. *)
Definition str (e : Exception) : string :=
  match e with
  | KeyError key => "'" ++ key ++ "'"
  | IndexError msg => msg
  | ZeroDivisionError msg => msg
  | ValueError msg => msg
  end.

(** Computations that may raise and may read the clock.  The state is the
    number of clock readings made so far. *)
Definition M (A : Type) : Type := nat -> Exception + (A * nat).

Definition ret {A} (a : A) : M A := fun k => inr (a, k).

Definition bind {A B} (m : M A) (f : A -> M B) : M B :=
  fun k => match m k with
           | inl e => inl e
           | inr (a, k') => f a k'
           end.

Definition raise {A} (e : Exception) : M A := fun _ => inl e.

Fixpoint mapM {A B} (f : A -> M B) (l : list A) : M (list B) :=
  match l with
  | [] => ret []
  | x :: t =>
      bind (f x) (fun y => bind (mapM f t) (fun ys => ret (y :: ys)))
  end.

(** A [for] loop whose body either appends one item to the result list or
    appends nothing ([continue], or a guard that is false). *)
Fixpoint for_each {A B} (body : A -> M (option B)) (l : list A) : M (list B) :=
  match l with
  | [] => ret []
  | x :: t =>
      bind (body x) (fun o =>
      bind (for_each body t) (fun ys =>
      ret (match o with Some y => y :: ys | None => ys end)))
  end.

(** Strict comparison of floats. *)
Definition Qltb (x y : Q) : bool := negb (Qle_bool y x).

(** [max(a, b)]: the first argument unless the second is strictly larger. *)
Definition max (a b : Q) : Q := if Qltb a b then b else a.

(** [max(l, key=key)] on a non-empty list [first :: rest]: the first item
    whose key is maximal. *)
Fixpoint max_by {A} (key : A -> Q) (best : A) (rest : list A) : A :=
  match rest with
  | [] => best
  | x :: t => max_by key (if Qltb (key best) (key x) then x else best) t
  end.

Definition Qsum (l : list Q) : Q := fold_right Qplus 0 l.

Definition len {A} (l : list A) : Q := inject_Z (Z.of_nat (List.length l)).

(** [np.mean(l)] and [Series.mean()], used on non-empty data only. *)
Definition mean (l : list Q) : Q := Qsum l / len l.

Fixpoint mul_each (a w : list Q) : list Q :=
  match a, w with
  | x :: a', y :: w' => x * y :: mul_each a' w'
  | _, _ => []
  end.

(** [np.average(a, weights=w)]: numpy refuses weights that sum to zero. *)
Definition average (a w : list Q) : M Q :=
  let scl := Qsum w in
  if Qeq_bool scl 0
  then raise (ZeroDivisionError "Weights sum to zero, can't be normalized")
  else ret (Qsum (mul_each a w) / scl).

(** [Series.min()] and [Series.max()], used on non-empty data only (the NaN
    of an empty Series is not modelled). *)
Definition Qmin_of (l : list Q) : Q :=
  match l with [] => 0 | first :: rest => fold_left Qmin rest first end.

Definition Qmax_of (l : list Q) : Q :=
  match l with [] => 0 | first :: rest => fold_left Qmax rest first end.

(** [Series.unique()]: the distinct values in order of first appearance. *)
Fixpoint unique {A} (eqb : A -> A -> bool) (l : list A) : list A :=
  match l with
  | [] => []
  | x :: t => x :: filter (fun y => negb (eqb x y)) (unique eqb t)
  end.

(** [d.get(key, default)] on a dict with string keys. *)
Fixpoint dict_get {V} (d : list (string * V)) (key : string) (default : V) : V :=
  match d with
  | [] => default
  | (k, v) :: d' => if String.eqb k key then v else dict_get d' key default
  end.

(** [d[key] = v]. *)
Fixpoint dict_set {V} (d : list (string * V)) (key : string) (v : V)
  : list (string * V) :=
  match d with
  | [] => [(key, v)]
  | (k, v') :: d' =>
      if String.eqb k key then (k, v) :: d' else (k, v') :: dict_set d' key v
  end.

(** [x in l]. *)
Definition contains {A} (eqb : A -> A -> bool) (x : A) (l : list A) : bool :=
  existsb (eqb x) l.

End Py.

Import Py.

Notation "x <- m ;; k" := (bind m (fun x => k))
  (at level 61, m at next level, right associativity).

(** ** Data model *)

(** A pandas [Timestamp] that carries a time zone. *)
Record Timestamp : Type := {
  instant : Z;      (* microseconds since the epoch, UTC *)
  utcoffset : Z     (* offset of the carried time zone, in seconds *)
}.

(** What [pd.to_datetime] makes of a record's [timestamp]: a naive reading
    (microseconds since the epoch on the wall clock it was written from) or
    a reading with a time zone. *)
Inductive Datetime : Type :=
| Naive (wall : Z)
| Aware (ts : Timestamp).

(** One record of [event_data].  Keys the engine never reads ([accuracy],
    [is_defaulter], [ip_address]) are left out. *)
Record RawEvent : Type := {
  raw_user_id : string;
  raw_event_type : option string;   (* [None]: the record has no such key *)
  raw_timestamp : Datetime;
  raw_lat : Q;
  raw_lon : Q
}.

(** One row of [df] once the [cluster] column is set. *)
Record Row : Type := {
  user_id : string;
  event_type : option string;       (* [None]: NaN *)
  timestamp : Timestamp;
  lat : Q;
  lon : Q;
  cluster : Z
}.

Record DataFrame : Type := {
  has_event_type : bool;            (* is [event_type] among the columns? *)
  rows : list Row
}.

Record WeightedEvent : Type := {
  we_event_type : option string;
  we_timestamp : Timestamp;
  we_lat : Q;
  we_lon : Q;
  we_cluster : Z;
  base_weight : Q;
  time_decay : Q;
  night_boost : Q;
  final_weight : Q
}.

Record ClusterPrediction : Type := {
  cluster_id : Z;
  predicted_lat : Q;
  predicted_lon : Q;
  event_count : nat;
  confidence : Q
}.

Record UserResult : Type := {
  ur_user_id : string;
  total_events : nat;
  event_types : list (string * nat);
  clusters_involved : Z;
  weighted_events : list WeightedEvent;
  cluster_predictions : list ClusterPrediction;
  primary_prediction : option ClusterPrediction;
  time_range : option (Timestamp * Timestamp)   (* first_event, last_event *)
}.

Record BoundingBox : Type := {
  min_lat : Q;
  max_lat : Q;
  min_lon : Q;
  max_lon : Q
}.

(** One entry of [cluster_info]; its key [cluster_<id>] is the [ci_cluster_id]. *)
Record ClusterInfo : Type := {
  ci_cluster_id : Z;
  ci_event_count : nat;
  user_count : nat;
  ci_event_types : list (string * nat);
  centroid : Q * Q;
  bounding_box : BoundingBox;
  users : list string
}.

Inductive Anomaly : Type :=
| no_clusters (uid : string) (count : nat)
| mixed_event_cluster (cid : Z) (types : list (option string)).

Record LocationPrediction : Type := {
  lp_predicted_lat : Q;
  lp_predicted_lon : Q;
  lp_confidence : Q;
  lp_cluster_id : option Z;
  lp_event_count : nat;
  prediction_type : string;
  lp_timestamp : Timestamp
}.

Record Summary : Type := {
  total_users : nat;
  summary_total_events : nat;
  total_clusters : Z;
  noise_points : nat;
  event_distribution : list (string * nat);
  cluster_distribution : list (Z * nat);
  processing_timestamp : Timestamp;
  anomalies : list Anomaly;
  summary_confidence : Q
}.

Record AlgorithmParameters : Type := {
  dbscan_eps : Q;
  dbscan_min_samples : nat;
  param_event_weights : list (string * Q);
  time_decay_hours : Q;
  night_boost_factor : Q
}.

Record AnalysisReport : Type := {
  summary : Summary;
  user_results : list UserResult;
  cluster_info : list ClusterInfo;
  location_predictions : list (string * LocationPrediction);
  algorithm_parameters : AlgorithmParameters
}.

(** What the entry point returns: the dict [{'error': msg}] or the report. *)
Inductive Output : Type :=
| ErrorDict (msg : string)
| Report (r : AnalysisReport).

(** ** Data-frame operations *)

(** [df[mask]]: the rows that satisfy the mask; the columns stay. *)
Definition select (mask : Row -> bool) (df : DataFrame) : DataFrame :=
  {| has_event_type := has_event_type df; rows := filter mask (rows df) |}.

(** [row['event_type']] and [df['event_type']]: a [KeyError] when the frame
    has no such column. *)
Definition getitem_event_type (df : DataFrame) (row : Row) : M (option string) :=
  if has_event_type df then ret (event_type row)
  else raise (KeyError "event_type").

Definition column_event_type (df : DataFrame) : M (list (option string)) :=
  if has_event_type df then ret (map event_type (rows df))
  else raise (KeyError "event_type").

(** [Series.iloc[0]]. *)
Definition iloc0 {A} (col : list A) : M A :=
  match col with
  | [] => raise (IndexError "single positional indexer is out-of-bounds")
  | x :: _ => ret x
  end.

Definition option_string_eqb (a b : option string) : bool :=
  match a, b with
  | Some x, Some y => String.eqb x y
  | None, None => true
  | _, _ => false
  end.

Fixpoint dropna (col : list (option string)) : list string :=
  match col with
  | [] => []
  | Some s :: t => s :: dropna t
  | None :: t => dropna t
  end.

(** [Series.value_counts().to_dict()]: NaN is not counted.  A dict: the
    order of the entries carries no meaning. *)
Definition value_counts (col : list (option string)) : list (string * nat) :=
  let present := dropna col in
  map (fun k => (k, count_occ string_dec present k)) (unique String.eqb present).

Definition value_counts_Z (col : list Z) : list (Z * nat) :=
  map (fun k => (k, count_occ Z.eq_dec col k)) (unique Z.eqb col).

(** [len(col.unique()) - (1 if -1 in col.values else 0)]. *)
Definition count_clusters (col : list Z) : Z :=
  (Z.of_nat (List.length (unique Z.eqb col))
   - (if contains Z.eqb (-1) col then 1 else 0))%Z.

Definition not_noise (r : Row) : bool := negb (cluster r =? -1)%Z.

(** [Series.min()] and [Series.max()] of a column of timestamps. *)
Definition ts_min (first : Timestamp) (rest : list Timestamp) : Timestamp :=
  fold_left (fun a b => if (instant b <? instant a)%Z then b else a) rest first.

Definition ts_max (first : Timestamp) (rest : list Timestamp) : Timestamp :=
  fold_left (fun a b => if (instant a <? instant b)%Z then b else a) rest first.

(** [Timestamp.hour]: the hour of the day in the time zone the timestamp
    carries. *)
Definition hour (t : Timestamp) : Z :=
  (((instant t / 1000000 + utcoffset t) / 3600) mod 24)%Z.

(** [timedelta.total_seconds()] of a difference of instants. *)
Definition total_seconds (delta : Z) : Q := inject_Z delta / 1000000.

(** [Series.dt.tz_localize('UTC')] on a reading without a time zone.  The
    source tests the column as a whole ([df['timestamp'].dt.tz is None]); a
    pandas column has one time zone, so the test is made per reading. *)
Definition tz_localize_UTC (d : Datetime) : Timestamp :=
  match d with
  | Naive wall => {| instant := wall; utcoffset := 0 |}
  | Aware ts => ts
  end.

(** [format_timestamp_ist]: the instant, carried in Asia/Kolkata (+05:30). *)
Definition format_timestamp_ist (dt : Z) : Timestamp :=
  {| instant := dt; utcoffset := 19800 |}.

(** [pd.DataFrame(event_data)] with the [timestamp] column converted; the
    labels of the [cluster] column come next. *)
Definition make_row (e : RawEvent) (label : Z) : Row :=
  {| user_id := raw_user_id e;
     event_type := raw_event_type e;
     timestamp := tz_localize_UTC (raw_timestamp e);
     lat := raw_lat e;
     lon := raw_lon e;
     cluster := label |}.

Definition is_some {A} (o : option A) : bool :=
  match o with Some _ => true | None => false end.

Definition string_of_nat (n : nat) : string :=
  NilEmpty.string_of_uint (Nat.to_uint n).

(** [df['cluster'] = labels]: pandas refuses a column of another length. *)
Definition set_cluster (event_data : list RawEvent) (labels : list Z) : M DataFrame :=
  if (List.length labels =? List.length event_data)%nat
  then ret {| has_event_type := existsb (fun e => is_some (raw_event_type e)) event_data;
              rows := map (fun el => make_row (fst el) (snd el))
                          (combine event_data labels) |}
  else raise (ValueError ("Length of values ("
                          ++ string_of_nat (List.length labels)
                          ++ ") does not match length of index ("
                          ++ string_of_nat (List.length event_data) ++ ")")).

(** ** The engine *)

Section Engine.

(** The wall clock: [clock k] is what the [k]-th call of [timezone.now()]
    returns. *)
Variable clock : nat -> Z.

(** [DBSCAN(eps=0.01, min_samples=2).fit_predict], from scikit-learn: one
    label per point, [-1] for noise. *)
Variable fit_predict : list (Q * Q) -> list Z.

Definition timezone_now : M Z := fun k => inr (clock k, S k).

(** The [event_weights] dict of [process_kalman_cluster_fusion]. *)
Definition event_weights : list (string * Q) :=
  [("upi", 1.0); ("app_open", 0.8); ("login", 0.6)].

(** [event_weights.get(x, 0.5)] where [x] may be NaN, which is no key. *)
Definition weight_get (weights : list (string * Q)) (x : option string) : Q :=
  match x with
  | Some key => dict_get weights key 0.5
  | None => 0.5
  end.

(** [time_diff]: hours from the event to [current_time]. *)
Definition time_diff_hours (current_time : Z) (event_time : Timestamp) : Q :=
  total_seconds (current_time - instant event_time) / 3600.

Definition time_decay_of (time_diff : Q) : Q := Py.max 0 (1 - time_diff / 72).

Definition night_boost_of (event_hour : Z) : Q :=
  if ((22 <=? event_hour) || (event_hour <=? 6))%Z then 1.2 else 1.0.

(** The body of the first loop of [process_user_data].  Every timestamp of
    [df] carries a time zone by now, so the [make_aware] branch is dead. *)
Definition weigh_event (weights : list (string * Q)) (current_time : Z)
    (user_data : DataFrame) (event : Row) : M WeightedEvent :=
  et <- getitem_event_type user_data event ;;
  let base_weight := weight_get weights et in
  let event_time := timestamp event in
  let time_diff := time_diff_hours current_time event_time in
  let time_decay := time_decay_of time_diff in
  let event_hour := hour event_time in
  let night_boost := night_boost_of event_hour in
  let final_weight := base_weight * time_decay * night_boost in
  ret {| we_event_type := et;
         we_timestamp := event_time;
         we_lat := lat event;
         we_lon := lon event;
         we_cluster := cluster event;
         base_weight := base_weight;
         time_decay := time_decay;
         night_boost := night_boost;
         final_weight := final_weight |}.

(** The body of the loop over [clusters['cluster'].unique()]. *)
Definition cluster_prediction (weights_dict : list (string * Q))
    (clusters : DataFrame) (cid : Z) : M (option ClusterPrediction) :=
  let cluster_events := select (fun r => (cluster r =? cid)%Z) clusters in
  weights <- mapM (fun row => et <- getitem_event_type cluster_events row ;;
                              ret (weight_get weights_dict et))
                  (rows cluster_events) ;;
  match weights with
  | [] => ret None
  | _ :: _ =>
      weighted_lat <- average (map lat (rows cluster_events)) weights ;;
      weighted_lon <- average (map lon (rows cluster_events)) weights ;;
      ret (Some {| cluster_id := cid;
                   predicted_lat := weighted_lat;
                   predicted_lon := weighted_lon;
                   event_count := List.length (rows cluster_events);
                   confidence := mean weights |})
  end.

Definition primary_of (predictions : list ClusterPrediction)
  : option ClusterPrediction :=
  match predictions with
  | [] => None
  | p :: rest => Some (max_by confidence p rest)
  end.

Definition time_range_of (col : list Timestamp) : option (Timestamp * Timestamp) :=
  match col with
  | [] => None
  | t :: rest => Some (ts_min t rest, ts_max t rest)
  end.

Definition process_user_data (user_data : DataFrame)
    (weights_dict : list (string * Q)) : M UserResult :=
  uid <- iloc0 (map user_id (rows user_data)) ;;
  current_time <- timezone_now ;;
  weighted <- mapM (weigh_event weights_dict current_time user_data)
                   (rows user_data) ;;
  let clusters := select not_noise user_data in
  predictions <-
    (if (0 <? List.length (rows clusters))%nat
     then for_each (cluster_prediction weights_dict clusters)
                   (unique Z.eqb (map cluster (rows clusters)))
     else ret []) ;;
  types <- column_event_type user_data ;;
  ret {| ur_user_id := uid;
         total_events := List.length (rows user_data);
         event_types := value_counts types;
         clusters_involved := count_clusters (map cluster (rows user_data));
         weighted_events := weighted;
         cluster_predictions := predictions;
         primary_prediction := primary_of predictions;
         time_range := time_range_of (map timestamp (rows user_data)) |}.

(** The body of the loop of [get_cluster_info]. *)
Definition cluster_info_of (df : DataFrame) (cid : Z) : M (option ClusterInfo) :=
  if (cid =? -1)%Z then ret None
  else
    let cluster_data := select (fun r => (cluster r =? cid)%Z) df in
    types <- column_event_type cluster_data ;;
    let uids := unique String.eqb (map user_id (rows cluster_data)) in
    let lats := map lat (rows cluster_data) in
    let lons := map lon (rows cluster_data) in
    ret (Some {| ci_cluster_id := cid;
                 ci_event_count := List.length (rows cluster_data);
                 user_count := List.length uids;
                 ci_event_types := value_counts types;
                 centroid := (mean lats, mean lons);
                 bounding_box := {| min_lat := Qmin_of lats;
                                    max_lat := Qmax_of lats;
                                    min_lon := Qmin_of lons;
                                    max_lon := Qmax_of lons |};
                 users := uids |}).

Definition get_cluster_info (df : DataFrame) : M (list ClusterInfo) :=
  for_each (cluster_info_of df) (unique Z.eqb (map cluster (rows df))).

Definition of_user (uid : string) (r : Row) : bool := String.eqb (user_id r) uid.

Definition detect_anomalies (df : DataFrame) : M (list Anomaly) :=
  by_user <-
    for_each (fun uid =>
                let user_data := select (of_user uid) df in
                let user_clusters := select not_noise user_data in
                if ((5 <=? List.length (rows user_data))
                    && (List.length (rows user_clusters) =? 0))%nat
                then ret (Some (no_clusters uid (List.length (rows user_data))))
                else ret None)
             (unique String.eqb (map user_id (rows df))) ;;
  by_cluster <-
    for_each (fun cid =>
                if (cid =? -1)%Z then ret None
                else
                  let cluster_data := select (fun r => (cluster r =? cid)%Z) df in
                  col <- column_event_type cluster_data ;;
                  let types := unique option_string_eqb col in
                  if contains option_string_eqb (Some "upi") types
                     && (2 <? List.length types)%nat
                  then ret (Some (mixed_event_cluster cid types))
                  else ret None)
             (unique Z.eqb (map cluster (rows df))) ;;
  ret (by_user ++ by_cluster)%list.

Definition confidence_or_zero (result : UserResult) : Q :=
  match primary_prediction result with
  | Some p => confidence p
  | None => 0.0
  end.

Definition calculate_overall_confidence (results : list UserResult) : Q :=
  match results with
  | [] => 0.0
  | _ :: _ =>
      let confidences := map confidence_or_zero results in
      match confidences with
      | [] => 0.0
      | _ :: _ => mean confidences
      end
  end.

(** The loop of [generate_location_predictions], with the [predictions] dict
    built so far. *)
Fixpoint location_predictions_loop (df : DataFrame) (results : list UserResult)
    (predictions : list (string * LocationPrediction))
  : M (list (string * LocationPrediction)) :=
  match results with
  | [] => ret predictions
  | result :: rest =>
      let uid := ur_user_id result in
      match primary_prediction result with
      | Some pred =>
          now <- timezone_now ;;
          location_predictions_loop df rest
            (dict_set predictions uid
               {| lp_predicted_lat := predicted_lat pred;
                  lp_predicted_lon := predicted_lon pred;
                  lp_confidence := confidence pred;
                  lp_cluster_id := Some (cluster_id pred);
                  lp_event_count := event_count pred;
                  prediction_type := "cluster_based";
                  lp_timestamp := format_timestamp_ist now |})
      | None =>
          let user_data := select (of_user uid) df in
          if (0 <? List.length (rows user_data))%nat
          then
            now <- timezone_now ;;
            location_predictions_loop df rest
              (dict_set predictions uid
                 {| lp_predicted_lat := mean (map lat (rows user_data));
                    lp_predicted_lon := mean (map lon (rows user_data));
                    lp_confidence := 0.3;
                    lp_cluster_id := None;
                    lp_event_count := List.length (rows user_data);
                    prediction_type := "simple_average";
                    lp_timestamp := format_timestamp_ist now |})
          else location_predictions_loop df rest predictions
      end
  end.

Definition generate_location_predictions (df : DataFrame)
    (results : list UserResult) : M (list (string * LocationPrediction)) :=
  location_predictions_loop df results [].

(** The [try] block of [process_kalman_cluster_fusion] on a non-empty
    batch. *)
Definition analyse (event_data : list RawEvent) : M AnalysisReport :=
  let coordinates := map (fun e => (raw_lat e, raw_lon e)) event_data in
  df <- set_cluster event_data (fit_predict coordinates) ;;
  results <- mapM (fun uid => process_user_data (select (of_user uid) df)
                                                event_weights)
                  (unique String.eqb (map user_id (rows df))) ;;
  let clusters := count_clusters (map cluster (rows df)) in
  let noise := List.length (filter (fun r => (cluster r =? -1)%Z) (rows df)) in
  types <- column_event_type df ;;
  now <- timezone_now ;;
  found <- detect_anomalies df ;;
  info <- get_cluster_info df ;;
  predictions <- generate_location_predictions df results ;;
  ret {| summary :=
           {| total_users := List.length (unique String.eqb (map user_id (rows df)));
              summary_total_events := List.length (rows df);
              total_clusters := clusters;
              noise_points := noise;
              event_distribution := value_counts types;
              cluster_distribution :=
                if (0 <? clusters)%Z
                then value_counts_Z (map cluster (rows (select not_noise df)))
                else [];
              processing_timestamp := format_timestamp_ist now;
              anomalies := found;
              summary_confidence := calculate_overall_confidence results |};
         user_results := results;
         cluster_info := info;
         location_predictions := predictions;
         algorithm_parameters :=
           {| dbscan_eps := 0.01;
              dbscan_min_samples := 2;
              param_event_weights := event_weights;
              time_decay_hours := 72;
              night_boost_factor := 1.2 |} |}.

(** The entry point.  An empty batch gives the sentinel; an exception raised
    anywhere in the [try] block is turned into an error dict.  The second
    test, [df.empty], is for a frame without rows or without columns: the
    frame of a non-empty list of records that have keys is not empty. *)
Definition process_kalman_cluster_fusion (event_data : list RawEvent) : Output :=
  match event_data with
  | [] => ErrorDict "No data to process"
  | _ :: _ =>
      match analyse event_data 0%nat with
      | inr (report, _) => Report report
      | inl e => ErrorDict ("Processing failed: " ++ str e)
      end
  end.

End Engine.

(** ** What the specification says

    The definitions of this part follow the words of the specification, to
    be compared with what the engine computes. *)

(** The member events of a cluster among a user's weighted events. *)
Definition members_of (cid : Z) (events : list WeightedEvent) : list WeightedEvent :=
  filter (fun we => (we_cluster we =? cid)%Z) events.

(** "weighted average of member lat/lon using each event's final_weight as
    weight". *)
Definition spec_centroid (coord : WeightedEvent -> Q) (members : list WeightedEvent) : Q :=
  Qsum (map (fun we => coord we * final_weight we) members)
  / Qsum (map final_weight members).

(** "arithmetic mean of the member events' final_weight values". *)
Definition spec_confidence (members : list WeightedEvent) : Q :=
  mean (map final_weight members).


(** The hour of the day in India Standard Time (+05:30). *)
Definition ist_hour (t : Timestamp) : Z :=
  hour {| instant := instant t; utcoffset := 19800 |}.

(** "1.2 if the event's local hour (converted to India Standard Time) falls
    in [22,23] u [0,6], else 1.0". *)
Definition spec_night_boost (t : Timestamp) : Q :=
  if ((22 <=? ist_hour t) && (ist_hour t <=? 23)
      || (0 <=? ist_hour t) && (ist_hour t <=? 6))%Z
  then 1.2 else 1.0.

(** "arithmetic mean of every user's primary prediction confidence", the
    fallback prediction counting with its confidence 0.3; 0.0 without
    users. *)
Definition spec_overall_confidence (results : list UserResult) : Q :=
  match results with
  | [] => 0.0
  | _ :: _ =>
      mean (map (fun result => match primary_prediction result with
                               | Some p => confidence p
                               | None => 0.3
                               end) results)
  end.

(** ** Two runs side by side *)

(** [sim R m1 m2]: whatever the clock states they start from, [m1] and [m2]
    raise the same exception or return values related by [R]. *)
Definition sim {A B} (R : A -> B -> Prop) (m1 : M A) (m2 : M B) : Prop :=
  forall k1 k2,
    match m1 k1, m2 k2 with
    | inl e1, inl e2 => e1 = e2
    | inr (a1, _), inr (a2, _) => R a1 a2
    | _, _ => False
    end.

(** What of a report does not come from a clock reading: everything but
    [time_decay], [final_weight] and the timestamps of the run itself. *)
Definition forget_weighted (we : WeightedEvent) : WeightedEvent :=
  {| we_event_type := we_event_type we;
     we_timestamp := we_timestamp we;
     we_lat := we_lat we;
     we_lon := we_lon we;
     we_cluster := we_cluster we;
     base_weight := base_weight we;
     time_decay := 0;
     night_boost := night_boost we;
     final_weight := 0 |}.

Definition forget_user (ur : UserResult) : UserResult :=
  {| ur_user_id := ur_user_id ur;
     total_events := total_events ur;
     event_types := event_types ur;
     clusters_involved := clusters_involved ur;
     weighted_events := map forget_weighted (weighted_events ur);
     cluster_predictions := cluster_predictions ur;
     primary_prediction := primary_prediction ur;
     time_range := time_range ur |}.

(** Two user results that differ in what was read from the clock only. *)
Definition same_but_clock (u1 u2 : UserResult) : Prop :=
  forget_user u1 = forget_user u2.

Definition epoch : Timestamp := {| instant := 0; utcoffset := 0 |}.

Definition forget_location (lp : LocationPrediction) : LocationPrediction :=
  {| lp_predicted_lat := lp_predicted_lat lp;
     lp_predicted_lon := lp_predicted_lon lp;
     lp_confidence := lp_confidence lp;
     lp_cluster_id := lp_cluster_id lp;
     lp_event_count := lp_event_count lp;
     prediction_type := prediction_type lp;
     lp_timestamp := epoch |}.

Definition forget_entry (ul : string * LocationPrediction)
  : string * LocationPrediction :=
  (fst ul, forget_location (snd ul)).

Definition forget_summary (s : Summary) : Summary :=
  {| total_users := total_users s;
     summary_total_events := summary_total_events s;
     total_clusters := total_clusters s;
     noise_points := noise_points s;
     event_distribution := event_distribution s;
     cluster_distribution := cluster_distribution s;
     processing_timestamp := epoch;
     anomalies := anomalies s;
     summary_confidence := summary_confidence s |}.

Definition forget_report (r : AnalysisReport) : AnalysisReport :=
  {| summary := forget_summary (summary r);
     user_results := map forget_user (user_results r);
     cluster_info := cluster_info r;
     location_predictions := map forget_entry (location_predictions r);
     algorithm_parameters := algorithm_parameters r |}.

Definition forget_output (o : Output) : Output :=
  match o with
  | ErrorDict msg => ErrorDict msg
  | Report r => Report (forget_report r)
  end.

(** ** Sample data *)

Module Sample.

(** Midnight UTC of day 20000 after the epoch (a day of 2024), in hours
    after the epoch. *)
Definition day0 : Z := 480000.

(** [hours h]: the instant [h] hours after that midnight; its hour of the
    day in UTC is [h mod 24]. *)
Definition hours (h : Z) : Z := ((day0 + h) * 3600000000)%Z.

Definition utc (h : Z) : Timestamp := {| instant := hours h; utcoffset := 0 |}.

(** A wall clock that stands still at [hours h]. *)
Definition clock_at (h : Z) : nat -> Z := fun _ => hours h.

Definition event (uid type : string) (h : Z) (la lo : Q) : RawEvent :=
  {| raw_user_id := uid;
     raw_event_type := Some type;
     raw_timestamp := Aware (utc h);
     raw_lat := la;
     raw_lon := lo |}.

Definition row (uid type : string) (h : Z) (la lo : Q) (label : Z) : Row :=
  make_row (event uid type h la lo) label.

(** Stand-ins for the clusterer: one cluster for all points, or none. *)
Definition one_cluster (points : list (Q * Q)) : list Z := map (fun _ => 0%Z) points.
Definition all_noise (points : list (Q * Q)) : list Z := map (fun _ => (-1)%Z) points.

Definition frame (l : list Row) : DataFrame := {| has_event_type := true; rows := l |}.

(** Two payments of one user, at 1000 h and at 952 h (16:00 UTC
    both), a hundred metres apart. *)
Definition two_payments : list RawEvent :=
  [event "U1" "upi" 1000 12.900 77.590; event "U1" "upi" 952 12.901 77.591].

(** The same two payments as the frame of user U1, in one cluster (the two
    points are 0.0014 degrees apart, within [eps]). *)
Definition paid_twice : DataFrame :=
  frame [row "U1" "upi" 1000 12.900 77.590 0; row "U1" "upi" 952 12.901 77.591 0].


(** The frame of a user whose single event, at 900 h, lies in
    a cluster (with events of other users). *)
Definition old_single : DataFrame :=
  frame [row "U1" "upi" 900 12.900 77.590 0].

(** A user with two clustered events and one noise event between them, and
    the same user without the noise event. *)
Definition with_noise : DataFrame :=
  frame [row "U1" "upi" 1000 12.900 77.590 0;
         row "U1" "login" 990 40 50 (-1);
         row "U1" "app_open" 999 12.901 77.591 0].

Definition without_noise : DataFrame :=
  frame [row "U1" "upi" 1000 12.900 77.590 0;
         row "U1" "app_open" 999 12.901 77.591 0].

(** A single login of user U2, far from any other point: noise. *)
Definition lone_login : list RawEvent :=
  [event "U2" "login" 1000 12.950 77.650].

(** A record without [event_type] next to a complete one. *)
Definition one_untyped : list RawEvent :=
  [event "U1" "upi" 1000 12.900 77.590;
   {| raw_user_id := "U1";
      raw_event_type := None;
      raw_timestamp := Aware (utc 999);
      raw_lat := 12.901;
      raw_lon := 77.591 |}].


(** The frame of a user with events at two places, first in cluster 1, then
    in cluster 0, all payments: both clusters get confidence 1. *)
Definition two_places : DataFrame :=
  frame [row "U1" "upi" 1000 12.900 77.590 1;
         row "U1" "upi" 999 13.100 77.800 0;
         row "U1" "upi" 998 12.901 77.591 1].

(** The frame of a batch in which user U3 has six events, scattered, all
    noise. *)
Definition six_scattered : DataFrame :=
  frame [row "U3" "login" 1000 10 70 (-1); row "U3" "login" 999 11 71 (-1);
         row "U3" "upi" 998 12 72 (-1); row "U3" "login" 997 13 73 (-1);
         row "U3" "app_open" 996 14 74 (-1); row "U3" "login" 995 15 75 (-1)].

(** The frame of a batch with a payment, a login and an app opening at one
    place. *)
Definition busy_place : DataFrame :=
  frame [row "U1" "upi" 1000 12.900 77.590 0;
         row "U2" "login" 999 12.901 77.591 0;
         row "U1" "app_open" 998 12.902 77.592 0].

(** Two events of U1 close to each other and a lone event of U2. *)
Definition mixed_batch : list RawEvent :=
  [event "U1" "upi" 1000 12.900 77.590;
   event "U2" "login" 999 40 50;
   event "U1" "app_open" 998 12.901 77.591].

(** The labels DBSCAN gives [mixed_batch]. *)
Definition mixed_labels (points : list (Q * Q)) : list Z :=
  match points with
  | [_; _; _] => [0; -1; 0]%Z
  | _ => map (fun _ => (-1)%Z) points
  end.

End Sample.

(** ** Closed forms

    What the loops of [process_user_data] compute when nothing is raised;
    the lemmas below prove that they do. *)

(** The weighted event that [weigh_event] makes of a row. *)
Definition weighed (weights : list (string * Q)) (now : Z) (ev : Row) : WeightedEvent :=
  {| we_event_type := event_type ev;
     we_timestamp := timestamp ev;
     we_lat := lat ev;
     we_lon := lon ev;
     we_cluster := cluster ev;
     base_weight := weight_get weights (event_type ev);
     time_decay := time_decay_of (time_diff_hours now (timestamp ev));
     night_boost := night_boost_of (hour (timestamp ev));
     final_weight := weight_get weights (event_type ev)
                     * time_decay_of (time_diff_hours now (timestamp ev))
                     * night_boost_of (hour (timestamp ev)) |}.

Definition in_cluster (cid : Z) (r : Row) : bool := (cluster r =? cid)%Z.

Definition base_weights (members : list Row) : list Q :=
  map (fun r => weight_get event_weights (event_type r)) members.

(** The prediction [cluster_prediction] makes for cluster [cid] from the
    rows [l]. *)
Definition prediction_of (l : list Row) (cid : Z) : ClusterPrediction :=
  let members := filter (in_cluster cid) l in
  {| cluster_id := cid;
     predicted_lat := Qsum (mul_each (map lat members) (base_weights members))
                      / Qsum (base_weights members);
     predicted_lon := Qsum (mul_each (map lon members) (base_weights members))
                      / Qsum (base_weights members);
     event_count := List.length members;
     confidence := mean (base_weights members) |}.

(** The non-noise clusters of the rows [l], in order of first appearance. *)
Definition clusters_of (l : list Row) : list Z :=
  unique Z.eqb (map cluster (filter not_noise l)).

(** The result [process_user_data] returns for the non-empty frame [ud] of
    user [uid] when the clock reads [now]. *)
Definition user_result_of (now : Z) (ud : DataFrame) (uid : string) : UserResult :=
  let predictions := map (prediction_of (rows ud)) (clusters_of (rows ud)) in
  {| ur_user_id := uid;
     total_events := List.length (rows ud);
     event_types := value_counts (map event_type (rows ud));
     clusters_involved := count_clusters (map cluster (rows ud));
     weighted_events := map (weighed event_weights now) (rows ud);
     cluster_predictions := predictions;
     primary_prediction := primary_of predictions;
     time_range := time_range_of (map timestamp (rows ud)) |}.

(** The entry [get_cluster_info] makes for cluster [cid] from the rows [l]. *)
Definition info_of (l : list Row) (cid : Z) : ClusterInfo :=
  let members := filter (in_cluster cid) l in
  {| ci_cluster_id := cid;
     ci_event_count := List.length members;
     user_count := List.length (unique String.eqb (map user_id members));
     ci_event_types := value_counts (map event_type members);
     centroid := (mean (map lat members), mean (map lon members));
     bounding_box := {| min_lat := Qmin_of (map lat members);
                        max_lat := Qmax_of (map lat members);
                        min_lon := Qmin_of (map lon members);
                        max_lon := Qmax_of (map lon members) |};
     users := unique String.eqb (map user_id members) |}.

(** The users of the rows [l], in order of first appearance. *)
Definition users_of (l : list Row) : list string :=
  unique String.eqb (map user_id l).

(** The anomaly [detect_anomalies] reports for user [uid], and the one it
    reports for the non-noise cluster [cid], if any. *)
Definition user_anomaly (l : list Row) (uid : string) : option Anomaly :=
  let user_rows := filter (of_user uid) l in
  if ((5 <=? List.length user_rows)
      && (List.length (filter not_noise user_rows) =? 0))%nat
  then Some (no_clusters uid (List.length user_rows))
  else None.

Definition cluster_anomaly (l : list Row) (cid : Z) : option Anomaly :=
  let types := unique option_string_eqb
                 (map event_type (filter (in_cluster cid) l)) in
  if contains option_string_eqb (Some "upi") types
     && (2 <? List.length types)%nat
  then Some (mixed_event_cluster cid types)
  else None.

Definition option_list {A} (o : option A) : list A :=
  match o with Some y => [y] | None => [] end.

(** [location_of ur lp]: the location prediction [lp] is the one
    [generate_location_predictions] makes of the user result [ur]: the
    primary prediction restated, or the plain average of all the user's
    events. *)
Definition location_of (ur : UserResult) (lp : LocationPrediction) : Prop :=
  match primary_prediction ur with
  | Some p =>
      prediction_type lp = "cluster_based"
      /\ lp_predicted_lat lp = predicted_lat p
      /\ lp_predicted_lon lp = predicted_lon p
      /\ lp_confidence lp = confidence p
      /\ lp_cluster_id lp = Some (cluster_id p)
      /\ lp_event_count lp = event_count p
  | None =>
      prediction_type lp = "simple_average"
      /\ lp_predicted_lat lp = mean (map we_lat (weighted_events ur))
      /\ lp_predicted_lon lp = mean (map we_lon (weighted_events ur))
      /\ lp_confidence lp = 0.3
      /\ lp_cluster_id lp = None
      /\ lp_event_count lp = total_events ur
  end.

(** ** The rest of [utils.py] and the callers of the engine *)

(** [d.get(key, None)] on a dict with string keys. *)
Fixpoint dict_find {V} (d : list (string * V)) (key : string) : option V :=
  match d with
  | [] => None
  | (k, v) :: d' => if String.eqb k key then Some v else dict_find d' key
  end.

(** [get_user_prediction]: [processed_results] may be [None]; an error dict
    has no key [location_predictions]. *)
Definition get_user_prediction (uid : string) (processed_results : option Output)
  : option LocationPrediction :=
  match processed_results with
  | None => None
  | Some (ErrorDict _) => None
  | Some (Report r) => dict_find (location_predictions r) uid
  end.

(** An event dict as [calculate_prediction_accuracy] reads it. *)
Record Point : Type := {
  pt_lat : Q;
  pt_lon : Q
}.

(** What [calculate_prediction_accuracy] returns: the dict with the keys
    [accuracy] and [confidence], or the one with [accuracy] and
    [avg_distance]. *)
Inductive Accuracy : Type :=
| accuracy_confidence (accuracy conf : Q)
| accuracy_distance (accuracy avg_distance : Q).

(** The truth value of a float: zero is false. *)
Definition truthy (x : Q) : bool := negb (Qeq_bool x 0).

(** [event['lat'] and event['lon']], the test of
    [calculate_prediction_accuracy]. *)
Definition located (event : Point) : bool :=
  truthy (pt_lat event) && truthy (pt_lon event).

Section Accuracy.

(** [np.sqrt], from numpy. *)
Variable sqrt : Q -> Q.

(** The [distances] list of [calculate_prediction_accuracy]. *)
Fixpoint distances_to (prediction : LocationPrediction) (events : list Point) : list Q :=
  match events with
  | [] => []
  | event :: rest =>
      if truthy (pt_lat event) && truthy (pt_lon event)
      then
        sqrt ((pt_lat event - lp_predicted_lat prediction)
              * (pt_lat event - lp_predicted_lat prediction)
              + (pt_lon event - lp_predicted_lon prediction)
                * (pt_lon event - lp_predicted_lon prediction))
        :: distances_to prediction rest
      else distances_to prediction rest
  end.

Definition calculate_prediction_accuracy (events : list Point)
    (prediction : option LocationPrediction) : Accuracy :=
  match prediction with
  | None => accuracy_confidence 0 0
  | Some pred =>
      match distances_to pred events with
      | [] => accuracy_distance 0 0
      | d :: ds =>
          let avg_distance := mean (d :: ds) in
          let accuracy := Py.max 0 (1 - avg_distance / 0.1) in
          accuracy_distance accuracy avg_distance
      end
  end.

End Accuracy.

(** A [UserEvent] of [models.py], as far as the callers of the engine read
    it; [ue_user] is the Aadhaar number of its user. *)
Record UserEvent : Type := {
  ue_user : string;
  ue_event_type : string;
  ue_timestamp : Datetime;
  ue_latitude : Q;
  ue_longitude : Q
}.

(** [UserEvent.to_dict], which [process_data] passes on: the timestamp is
    written in ISO format as it is stored, and read back so. *)
Definition to_dict (e : UserEvent) : RawEvent :=
  {| raw_user_id := ue_user e;
     raw_event_type := Some (ue_event_type e);
     raw_timestamp := ue_timestamp e;
     raw_lat := ue_latitude e;
     raw_lon := ue_longitude e |}.

(** The record that [find_user_location] and [find_all_locations] make of an
    event: the timestamp goes through [format_timestamp_ist], which reads a
    naive one as UTC. *)
Definition location_record (e : UserEvent) : RawEvent :=
  {| raw_user_id := ue_user e;
     raw_event_type := Some (ue_event_type e);
     raw_timestamp :=
       Aware (format_timestamp_ist (instant (tz_localize_UTC (ue_timestamp e))));
     raw_lat := ue_latitude e;
     raw_lon := ue_longitude e |}.

(** The sum of the values of a dict of counts. *)
Definition total_count {K} (d : list (K * nat)) : nat := list_sum (map snd d).

(** A stored payment of U1 at 17:00 UTC, kept without a time zone. *)
Definition evening_payment : list UserEvent :=
  [{| ue_user := "U1";
      ue_event_type := "upi";
      ue_timestamp := Naive (Sample.hours 1001);
      ue_latitude := 12.900;
      ue_longitude := 77.590 |}].

(** A prediction at the place of the first of the three points below. *)
Definition predicted_here : LocationPrediction :=
  {| lp_predicted_lat := 12.900;
     lp_predicted_lon := 77.590;
     lp_confidence := 0.8;
     lp_cluster_id := Some 0%Z;
     lp_event_count := 2;
     prediction_type := "cluster_based";
     lp_timestamp := format_timestamp_ist (Sample.hours 1000) |}.

(** A stand-in for the square root: every distance is 0.05 degrees. *)
Definition flat_distance (x : Q) : Q := 0.05.

(** Three event dicts, the second on the equator. *)
Definition three_points : list Point :=
  [{| pt_lat := 12.900; pt_lon := 77.590 |};
   {| pt_lat := 0; pt_lon := 77.590 |};
   {| pt_lat := 12.901; pt_lon := 77.591 |}].

(** * Properties *)

(** ** The monad *)

Lemma bind_inr {A B} (m : M A) (f : A -> M B) k b k' :
  bind m f k = inr (b, k') ->
  exists a k1, m k = inr (a, k1) /\ f a k1 = inr (b, k').
Proof.
  unfold bind. destruct (m k) as [e | [a k1]]; [discriminate |].
  intros H. exists a, k1. split; [reflexivity | exact H].
Qed.

Lemma bind_inl {A B} (m : M A) (f : A -> M B) k e :
  bind m f k = inl e ->
  m k = inl e \/ exists a k1, m k = inr (a, k1) /\ f a k1 = inl e.
Proof.
  unfold bind. destruct (m k) as [e' | [a k1]].
  - intros H. left. congruence.
  - intros H. right. exists a, k1. split; [reflexivity | exact H].
Qed.

Lemma ret_inr {A} (a b : A) k k' : ret a k = inr (b, k') -> a = b /\ k = k'.
Proof. unfold ret. intros H. injection H as -> ->. split; reflexivity. Qed.

(** Splits a successful run along its binds. *)
Ltac run_inv H :=
  lazymatch type of H with
  | bind _ _ _ = inr _ =>
      let a := fresh "a" in
      let k := fresh "k" in
      let H1 := fresh "Hrun" in
      apply bind_inr in H; destruct H as (a & k & H1 & H)
  | ret _ _ = inr _ =>
      apply ret_inr in H; destruct H
  end.

Lemma mapM_inr {A B} (f : A -> M B) (l : list A) :
  forall k ys k', mapM f l k = inr (ys, k') ->
  Forall2 (fun x y => exists k1 k2, f x k1 = inr (y, k2)) l ys.
Proof.
  induction l as [| x t IH]; simpl; intros k ys k' H.
  - run_inv H. subst. constructor.
  - run_inv H. run_inv H. run_inv H. subst. constructor.
    + eauto.
    + eapply IH. eassumption.
Qed.

(** ** Relating two runs *)

Lemma sim_ret {A B} (R : A -> B -> Prop) a b : R a b -> sim R (ret a) (ret b).
Proof. intros H k1 k2. exact H. Qed.

Lemma sim_raise {A B} (R : A -> B -> Prop) e : sim R (raise e) (raise e).
Proof. intros k1 k2. reflexivity. Qed.

Lemma sim_bind {A A' B B'} (R : A -> A' -> Prop) (S : B -> B' -> Prop)
    (m1 : M A) (m2 : M A') (f1 : A -> M B) (f2 : A' -> M B') :
  sim R m1 m2 ->
  (forall a a', R a a' -> sim S (f1 a) (f2 a')) ->
  sim S (bind m1 f1) (bind m2 f2).
Proof.
  intros Hm Hf k1 k2. unfold bind.
  specialize (Hm k1 k2).
  destruct (m1 k1) as [e1 | [a1 s1]], (m2 k2) as [e2 | [a2 s2]]; try easy.
  apply Hf. exact Hm.
Qed.

Lemma sim_mapM {A A' B B'} (R : A -> A' -> Prop) (S : B -> B' -> Prop)
    (f1 : A -> M B) (f2 : A' -> M B') l1 l2 :
  Forall2 R l1 l2 ->
  (forall a a', R a a' -> sim S (f1 a) (f2 a')) ->
  sim (Forall2 S) (mapM f1 l1) (mapM f2 l2).
Proof.
  intros Hl Hf. induction Hl as [| x y t1 t2 Hxy Ht IH]; simpl.
  - apply sim_ret. constructor.
  - eapply sim_bind; [apply Hf; exact Hxy |]. intros b b' Hb.
    eapply sim_bind; [exact IH |]. intros bs bs' Hbs.
    apply sim_ret. constructor; assumption.
Qed.

Lemma sim_for_each {A B} (body1 body2 : A -> M (option B)) l :
  (forall a, sim eq (body1 a) (body2 a)) ->
  sim eq (for_each body1 l) (for_each body2 l).
Proof.
  intros Hb. induction l as [| x t IH]; simpl.
  - apply sim_ret. reflexivity.
  - eapply sim_bind; [apply Hb |]. intros o o' ->.
    eapply sim_bind; [exact IH |]. intros ys ys' ->.
    apply sim_ret. reflexivity.
Qed.

Lemma Forall2_eq_refl {A} (l : list A) : Forall2 eq l l.
Proof. induction l; constructor; auto. Qed.

Lemma Forall2_eq {A} (l l' : list A) : Forall2 eq l l' -> l = l'.
Proof. induction 1; congruence. Qed.

Lemma Forall2_map_eq {A B} (f : A -> B) (l l' : list A) :
  Forall2 (fun a a' => f a = f a') l l' -> map f l = map f l'.
Proof. induction 1; simpl; congruence. Qed.

(** ** Weights of a single event *)

Lemma Qltb_lt (x y : Q) : Qltb x y = true <-> x < y.
Proof.
  unfold Qltb. rewrite negb_true_iff. split.
  - intros H. apply Qnot_le_lt. intros Hle.
    apply Qle_bool_iff in Hle. congruence.
  - intros H. destruct (Qle_bool y x) eqn:E; [| reflexivity].
    apply Qle_bool_iff in E. apply Qlt_not_le in H. contradiction.
Qed.

Lemma Qltb_ge (x y : Q) : Qltb x y = false <-> y <= x.
Proof.
  unfold Qltb. rewrite negb_false_iff. apply Qle_bool_iff.
Qed.

Lemma div_72 (h : Q) : h / 72 == h * (1 # 72).
Proof. unfold Qdiv. apply Qmult_comp; reflexivity. Qed.

Lemma time_decay_cases (h : Q) :
  (h < 72 /\ time_decay_of h = 1 - h / 72) \/ (72 <= h /\ time_decay_of h = 0).
Proof.
  unfold time_decay_of, Py.max. pose proof (div_72 h) as D.
  destruct (Qltb 0 (1 - h / 72)) eqn:E.
  - apply Qltb_lt in E. left. split; [lra | reflexivity].
  - apply Qltb_ge in E. right. split; [lra | reflexivity].
Qed.

Lemma weigh_event_inr weights now df ev k we k' :
  weigh_event weights now df ev k = inr (we, k') ->
  has_event_type df = true /\ k' = k /\ we = weighed weights now ev.
Proof.
  unfold weigh_event, getitem_event_type. intros H.
  destruct (has_event_type df); [| discriminate].
  cbv [bind ret] in H. injection H as <- <-. auto.
Qed.

Lemma hour_range (t : Timestamp) : (0 <= hour t < 24)%Z.
Proof. unfold hour. apply Z.mod_pos_bound. lia. Qed.

Lemma night_boost_cases (h : Z) :
  ((22 <= h \/ h <= 6)%Z /\ night_boost_of h = 1.2)
  \/ ((6 < h < 22)%Z /\ night_boost_of h = 1.0).
Proof.
  unfold night_boost_of.
  destruct (22 <=? h)%Z eqn:E1; destruct (h <=? 6)%Z eqn:E2; simpl;
    rewrite ?Z.leb_le, ?Z.leb_gt in *; [left | left | left | right]; split;
    try reflexivity; lia.
Qed.

(** Closed comparisons of rationals. *)
Ltac Qclosed :=
  vm_compute;
  first [ reflexivity
        | discriminate
        | lia
        | let H := fresh in
          intro H; first [ discriminate H | lia | apply H; reflexivity ] ].

(** ** Time decay *)

(** C3 (as the code has it): for every event, [time_decay] is
    [max(0, 1 - hours_elapsed/72)]: never negative, at most 1 once no time
    has elapsed, 1 at 0 hours, 0 at and beyond 72 hours, non-increasing in
    the elapsed hours.  There is no upper clamp: for negative elapsed time
    (an event dated after the clock reading) it is [1 - hours_elapsed/72],
    which is above 1. *)
Theorem time_decay_unclamped_above :
  forall weights now df ev k we k',
    weigh_event weights now df ev k = inr (we, k') ->
    let h := time_diff_hours now (timestamp ev) in
    time_decay we == Qmax 0 (1 - h / 72) /\
    0 <= time_decay we /\
    (0 <= h -> time_decay we <= 1) /\
    (h == 0 -> time_decay we == 1) /\
    (72 <= h -> time_decay we == 0) /\
    (h < 0 -> time_decay we == 1 - h / 72 /\ 1 < time_decay we) /\
    (forall ev' k2 we' k2',
        weigh_event weights now df ev' k2 = inr (we', k2') ->
        h <= time_diff_hours now (timestamp ev') ->
        time_decay we' <= time_decay we).
Proof.
  intros weights now df ev k we k' H h.
  apply weigh_event_inr in H. destruct H as (_ & _ & ->). simpl. fold h.
  pose proof (div_72 h) as D.
  destruct (time_decay_cases h) as [[Hlt ->] | [Hge ->]].
  - repeat split; try lra.
    + symmetry. apply Q.max_r. lra.
    + intros ev' k2 we' k2' H' Hle.
      apply weigh_event_inr in H'. destruct H' as (_ & _ & ->). simpl.
      pose proof (div_72 (time_diff_hours now (timestamp ev'))) as D'.
      destruct (time_decay_cases (time_diff_hours now (timestamp ev')))
        as [[_ ->] | [_ ->]]; lra.
  - repeat split; try lra.
    + symmetry. apply Q.max_l. lra.
    + intros ev' k2 we' k2' H' Hle.
      apply weigh_event_inr in H'. destruct H' as (_ & _ & ->). simpl.
      pose proof (div_72 (time_diff_hours now (timestamp ev'))) as D'.
      destruct (time_decay_cases (time_diff_hours now (timestamp ev')))
        as [[Hlt' ->] | [_ ->]]; lra.
Qed.

(** An event 100 hours old has decayed to nothing. *)
Lemma time_decay_old_event :
  exists we,
    weigh_event event_weights (Sample.hours 1000) Sample.old_single
      (Sample.row "U1" "upi" 900 12.900 77.590 0) 0%nat = inr (we, 0%nat)
    /\ time_decay we == 0.
Proof.
  eexists. split; [lazy; reflexivity |].
  apply (time_decay_unclamped_above event_weights (Sample.hours 1000)
           Sample.old_single (Sample.row "U1" "upi" 900 12.900 77.590 0)
           0%nat _ 0%nat eq_refl).
  Qclosed.
Defined.

(** C3 fails as stated: an event dated 72 hours after the clock reading has
    [time_decay] 2, neither "exactly 1" nor within [0,1]. *)
Lemma future_event_time_decay :
  exists we,
    weigh_event event_weights (Sample.hours 1000) Sample.old_single
      (Sample.row "U1" "upi" 1072 12.900 77.590 0) 0%nat = inr (we, 0%nat)
    /\ time_diff_hours (Sample.hours 1000)
         (timestamp (Sample.row "U1" "upi" 1072 12.900 77.590 0)) < 0
    /\ time_decay we == 2
    /\ ~ time_decay we == 1
    /\ ~ time_decay we <= 1.
Proof.
  eexists. split; [lazy; reflexivity |]. repeat split; Qclosed.
Qed.

(** ** Night boost *)

(** C4 (as the code has it): for every event, [night_boost] is 1.2 exactly
    when the hour of the event's timestamp, read in the time zone the
    timestamp carries (UTC for a naive one), lies in [22,23] or [0,6], and
    1.0 otherwise.  The engine converts nothing: the hour is the hour in
    India Standard Time only when the timestamp arrives carrying +05:30. *)
Theorem night_boost_reads_carried_hour :
  forall weights now df ev k we k',
    weigh_event weights now df ev k = inr (we, k') ->
    let h := hour (timestamp ev) in
    (night_boost we = 1.2 <-> (22 <= h <= 23 \/ 0 <= h <= 6)%Z) /\
    (night_boost we = 1.0 <-> ~ (22 <= h <= 23 \/ 0 <= h <= 6)%Z) /\
    (utcoffset (timestamp ev) = 19800%Z -> h = ist_hour (timestamp ev)) /\
    (forall wall, timestamp ev = tz_localize_UTC (Naive wall) ->
                  h = ((wall / 1000000 / 3600) mod 24)%Z).
Proof.
  intros weights now df ev k we k' H h.
  apply weigh_event_inr in H. destruct H as (_ & _ & ->). simpl. fold h.
  pose proof (hour_range (timestamp ev)) as Hr. fold h in Hr.
  destruct (night_boost_cases h) as [[Hh ->] | [Hh ->]].
  - repeat split; intros; try lia; try discriminate.
    + unfold h, ist_hour, hour. simpl. congruence.
    + unfold h, hour. rewrite H. simpl. rewrite Z.add_0_r. reflexivity.
  - repeat split; intros; try lia; try discriminate.
    + unfold h, ist_hour, hour. simpl. congruence.
    + unfold h, hour. rewrite H. simpl. rewrite Z.add_0_r. reflexivity.
Qed.

(** An event stamped 17:00 in a zone at +05:30 is no night event. *)
Lemma night_boost_ist_afternoon :
  exists we,
    weigh_event event_weights (Sample.hours 1000) Sample.old_single
      {| user_id := "U1"; event_type := Some "upi";
         timestamp := {| instant := Sample.hours 1000; utcoffset := 19800 |};
         lat := 12.900; lon := 77.590; cluster := 0 |} 0%nat = inr (we, 0%nat)
    /\ night_boost we = 1.0.
Proof.
  eexists. split; [lazy; reflexivity |].
  apply (proj1 (proj2 (night_boost_reads_carried_hour event_weights
                         (Sample.hours 1000) Sample.old_single
                         {| user_id := "U1"; event_type := Some "upi";
                            timestamp := {| instant := Sample.hours 1000;
                                            utcoffset := 19800 |};
                            lat := 12.900; lon := 77.590; cluster := 0 |}
                         0%nat _ 0%nat eq_refl))).
  cbn [timestamp].
  change (hour {| instant := Sample.hours 1000; utcoffset := 19800 |}) with 21%Z.
  lia.
Defined.

(** C4 fails as stated: an event at 17:00 UTC is at 22:30 in India, a night
    hour there, and gets no boost. *)
Lemma utc_evening_not_boosted :
  exists we,
    weigh_event event_weights (Sample.hours 1001) Sample.old_single
      (Sample.row "U1" "upi" 1001 12.900 77.590 0) 0%nat = inr (we, 0%nat)
    /\ hour (timestamp (Sample.row "U1" "upi" 1001 12.900 77.590 0)) = 17%Z
    /\ ist_hour (timestamp (Sample.row "U1" "upi" 1001 12.900 77.590 0)) = 22%Z
    /\ night_boost we = 1.0
    /\ spec_night_boost (timestamp (Sample.row "U1" "upi" 1001 12.900 77.590 0)) = 1.2
    /\ ~ night_boost we
         == spec_night_boost (timestamp (Sample.row "U1" "upi" 1001 12.900 77.590 0)).
Proof.
  eexists. split; [lazy; reflexivity |]. repeat split; Qclosed.
Qed.

(** ** The empty batch *)

Lemma failure_message_not_sentinel (s : string) :
  "Processing failed: " ++ s <> "No data to process".
Proof. simpl. discriminate. Qed.

(** C9: an empty batch gives exactly the sentinel [{'error': 'No data to
    process'}], whatever the clock and the clusterer, and nothing is raised
    (the entry point is a total function).  The sentinel can be told from an
    exceptional failure: a batch that has records ends in a report or in the
    error dict made of an exception, which reads ["Processing failed: ..."]
    and so never equals the sentinel. *)
Theorem empty_batch_sentinel :
  forall clock fit_predict,
    process_kalman_cluster_fusion clock fit_predict []
    = ErrorDict "No data to process"
    /\ (forall x, ErrorDict ("Processing failed: " ++ str x)
                  <> ErrorDict "No data to process")
    /\ (forall r, Report r <> ErrorDict "No data to process")
    /\ (forall e events,
           (exists r,
               process_kalman_cluster_fusion clock fit_predict (e :: events)
               = Report r)
           \/ (exists x,
                  process_kalman_cluster_fusion clock fit_predict (e :: events)
                  = ErrorDict ("Processing failed: " ++ str x))).
Proof.
  intros clock fit_predict. split; [reflexivity |].
  split.
  { intros x H. apply (failure_message_not_sentinel (str x)). congruence. }
  split; [discriminate |].
  intros e events. unfold process_kalman_cluster_fusion.
  destruct (analyse clock fit_predict (e :: events) 0%nat) as [x | [r k]].
  - right. exists x. reflexivity.
  - left. exists r. reflexivity.
Qed.

(** ** What [process_user_data] computes *)

Lemma bind_run {A B} (m : M A) (f : A -> M B) k a k1 :
  m k = inr (a, k1) -> bind m f k = f a k1.
Proof. unfold bind. intros ->. reflexivity. Qed.

Lemma bind_fail {A B} (m : M A) (f : A -> M B) k e :
  m k = inl e -> bind m f k = inl e.
Proof. unfold bind. intros ->. reflexivity. Qed.

Lemma weight_get_bounds (x : option string) :
  0.5 <= weight_get event_weights x <= 1.
Proof.
  destruct x as [s |]; unfold weight_get, event_weights, dict_get.
  - destruct (String.eqb "upi" s); [split; Qclosed |].
    destruct (String.eqb "app_open" s); [split; Qclosed |].
    destruct (String.eqb "login" s); split; Qclosed.
  - split; Qclosed.
Qed.

Lemma Qsum_pos (l : list Q) :
  l <> [] -> Forall (fun x => 0 < x) l -> 0 < Qsum l.
Proof.
  intros Hne Hall. destruct l as [| x t]; [congruence |]. clear Hne.
  revert x Hall. induction t as [| y t IH]; intros x Hall; simpl.
  - inversion Hall; subst. lra.
  - inversion Hall as [| ? ? Hx Ht]; subst.
    specialize (IH y Ht). simpl in IH. lra.
Qed.

Lemma base_weights_pos (members : list Row) :
  members <> [] -> 0 < Qsum (base_weights members).
Proof.
  intros Hne. apply Qsum_pos.
  - unfold base_weights. destruct members; [congruence | discriminate].
  - unfold base_weights. apply Forall_map, Forall_forall. intros r _.
    pose proof (weight_get_bounds (event_type r)). lra.
Qed.

Lemma mapM_weigh_event now df l k :
  has_event_type df = true ->
  mapM (weigh_event event_weights now df) l k
  = inr (map (weighed event_weights now) l, k).
Proof.
  intros Hcol. revert k. induction l as [| r t IH]; intros k; simpl.
  - reflexivity.
  - erewrite bind_run; cycle 1.
    { unfold weigh_event, getitem_event_type. rewrite Hcol. reflexivity. }
    erewrite bind_run by apply IH. reflexivity.
Qed.

Lemma mapM_base_weights df l k :
  has_event_type df = true ->
  mapM (fun row => et <- getitem_event_type df row ;;
                   ret (weight_get event_weights et)) l k
  = inr (base_weights l, k).
Proof.
  intros Hcol. revert k. induction l as [| r t IH]; intros k; simpl.
  - reflexivity.
  - erewrite bind_run; cycle 1.
    { unfold getitem_event_type. rewrite Hcol. reflexivity. }
    erewrite bind_run by apply IH. reflexivity.
Qed.

Lemma average_run (a w : list Q) k :
  0 < Qsum w -> average a w k = inr (Qsum (mul_each a w) / Qsum w, k).
Proof.
  intros Hpos. unfold average.
  destruct (Qeq_bool (Qsum w) 0) eqn:E; [| reflexivity].
  apply Qeq_bool_eq in E. lra.
Qed.

Lemma cluster_prediction_run clusters cid k :
  has_event_type clusters = true ->
  filter (in_cluster cid) (rows clusters) <> [] ->
  cluster_prediction event_weights clusters cid k
  = inr (Some (prediction_of (rows clusters) cid), k).
Proof.
  intros Hcol Hne. unfold cluster_prediction.
  erewrite bind_run by (apply mapM_base_weights; exact Hcol).
  change (fun r : Row => (cluster r =? cid)%Z) with (in_cluster cid).
  change (rows (select (in_cluster cid) clusters))
    with (filter (in_cluster cid) (rows clusters)).
  unfold prediction_of.
  set (members := filter (in_cluster cid) (rows clusters)) in *.
  pose proof (base_weights_pos members Hne) as Hpos.
  destruct (base_weights members) as [| w ws] eqn:E.
  - exfalso. apply map_eq_nil in E. contradiction.
  - cbv iota. rewrite <- E in *.
    erewrite bind_run by (apply average_run; exact Hpos).
    erewrite bind_run by (apply average_run; exact Hpos).
    reflexivity.
Qed.

(** *** [unique] *)

Section Unique.

Context {A : Type} (eqb : A -> A -> bool).
Hypothesis eqb_eq : forall x y, eqb x y = true <-> x = y.

Lemma in_unique (x : A) (l : list A) : In x (unique eqb l) <-> In x l.
Proof.
  induction l as [| a t IH]; simpl; [tauto |].
  rewrite filter_In, IH. split.
  - intros [H | [H _]]; auto.
  - intros [H | H]; [auto |].
    destruct (eqb a x) eqn:E.
    + left. apply eqb_eq. exact E.
    + right. auto.
Qed.

Lemma filter_filter_comm (p q : A -> bool) (l : list A) :
  filter p (filter q l) = filter q (filter p l).
Proof.
  induction l as [| a t IH]; simpl; [reflexivity |].
  destruct (p a) eqn:Ep, (q a) eqn:Eq; simpl; rewrite ?Ep, ?Eq; congruence.
Qed.

Lemma filter_all (q : A -> bool) (l : list A) :
  (forall y, In y l -> q y = true) -> filter q l = l.
Proof.
  induction l as [| a t IH]; simpl; intros H; [reflexivity |].
  rewrite (H a) by auto. f_equal. apply IH. auto.
Qed.

Lemma filter_unique (p : A -> bool) (l : list A) :
  filter p (unique eqb l) = unique eqb (filter p l).
Proof.
  induction l as [| a t IH]; simpl; [reflexivity |].
  destruct (p a) eqn:Ep; simpl.
  - rewrite <- IH. f_equal. apply filter_filter_comm.
  - rewrite <- IH, filter_filter_comm.
    apply filter_all. intros y Hy.
    apply filter_In in Hy. destruct Hy as [_ Hy].
    destruct (eqb a y) eqn:E; [| reflexivity].
    apply eqb_eq in E. congruence.
Qed.

Lemma NoDup_unique (l : list A) : NoDup (unique eqb l).
Proof.
  induction l as [| a t IH]; simpl; constructor.
  - rewrite filter_In. intros [_ H].
    assert (eqb a a = true) as E by (apply eqb_eq; reflexivity).
    rewrite E in H. discriminate.
  - apply NoDup_filter. exact IH.
Qed.

End Unique.

Lemma for_each_run {A B} (body : A -> M (option B)) (h : A -> option B) l k :
  (forall x k', In x l -> body x k' = inr (h x, k')) ->
  for_each body l k
  = inr (flat_map (fun x => match h x with Some y => [y] | None => [] end) l, k).
Proof.
  revert k. induction l as [| x t IH]; intros k Hb; simpl.
  - reflexivity.
  - erewrite bind_run by (apply Hb; left; reflexivity).
    erewrite bind_run by (apply IH; intros; apply Hb; right; assumption).
    unfold ret. destruct (h x); reflexivity.
Qed.

Lemma flat_map_some {A B} (g : A -> B) (l : list A) :
  flat_map (fun x => [g x]) l = map g l.
Proof. induction l; simpl; congruence. Qed.

(** *** Clusters of a frame *)

Lemma not_noise_true (r : Row) : not_noise r = true <-> cluster r <> (-1)%Z.
Proof. unfold not_noise. rewrite negb_true_iff, Z.eqb_neq. tauto. Qed.

Lemma in_clusters_of (cid : Z) (l : list Row) :
  In cid (clusters_of l) <->
  exists r, In r l /\ cluster r = cid /\ cid <> (-1)%Z.
Proof.
  unfold clusters_of. rewrite (in_unique Z.eqb Z.eqb_eq), in_map_iff. split.
  - intros (r & <- & Hr). apply filter_In in Hr. destruct Hr as [Hr Hn].
    exists r. rewrite not_noise_true in Hn. auto.
  - intros (r & Hr & <- & Hn). exists r. split; [reflexivity |].
    apply filter_In. rewrite not_noise_true. auto.
Qed.

Lemma members_not_noise (cid : Z) (l : list Row) :
  cid <> (-1)%Z ->
  filter (in_cluster cid) (filter not_noise l) = filter (in_cluster cid) l.
Proof.
  intros Hn. induction l as [| r t IH]; simpl; [reflexivity |].
  unfold not_noise at 1. unfold in_cluster at 2.
  destruct (cluster r =? cid)%Z eqn:E.
  - apply Z.eqb_eq in E.
    assert ((cluster r =? -1)%Z = false) as -> by (apply Z.eqb_neq; lia).
    simpl. unfold in_cluster at 1. rewrite (proj2 (Z.eqb_eq _ _) E).
    f_equal. exact IH.
  - destruct (cluster r =? -1)%Z; simpl; [exact IH |].
    unfold in_cluster at 1. rewrite E. exact IH.
Qed.

Lemma members_nonempty (cid : Z) (l : list Row) :
  In cid (clusters_of l) -> filter (in_cluster cid) l <> [].
Proof.
  intros H. apply in_clusters_of in H. destruct H as (r & Hr & Hc & _).
  intros E. assert (In r (filter (in_cluster cid) l)) as Hin.
  { apply filter_In. split; [exact Hr |]. unfold in_cluster.
    apply Z.eqb_eq. exact Hc. }
  rewrite E in Hin. exact Hin.
Qed.

Lemma prediction_not_noise (cid : Z) (l : list Row) :
  cid <> (-1)%Z -> prediction_of (filter not_noise l) cid = prediction_of l cid.
Proof.
  intros Hn. unfold prediction_of. rewrite (members_not_noise cid l Hn).
  reflexivity.
Qed.

Lemma clusters_of_not_noise (l : list Row) :
  clusters_of (filter not_noise l) = clusters_of l.
Proof.
  unfold clusters_of. f_equal. f_equal.
  induction l as [| r t IH]; simpl; [reflexivity |].
  destruct (not_noise r) eqn:E; simpl; rewrite ?E; congruence.
Qed.

Lemma predictions_run (ud : DataFrame) k :
  has_event_type ud = true ->
  (if (0 <? List.length (rows (select not_noise ud)))%nat
   then for_each (cluster_prediction event_weights (select not_noise ud))
                 (unique Z.eqb (map cluster (rows (select not_noise ud))))
   else ret []) k
  = inr (map (prediction_of (rows ud)) (clusters_of (rows ud)), k).
Proof.
  intros Hcol.
  change (rows (select not_noise ud)) with (filter not_noise (rows ud)).
  change (unique Z.eqb (map cluster (filter not_noise (rows ud))))
    with (clusters_of (rows ud)).
  destruct (filter not_noise (rows ud)) as [| r t] eqn:E.
  - simpl. unfold clusters_of. rewrite E. reflexivity.
  - change (0 <? List.length (r :: t))%nat with true. cbv iota.
    erewrite for_each_run
      with (h := fun cid => Some (prediction_of (filter not_noise (rows ud)) cid)).
    + rewrite flat_map_some. f_equal. f_equal.
      apply map_ext_in. intros cid Hcid.
      apply prediction_not_noise.
      apply in_clusters_of in Hcid. destruct Hcid as (_ & _ & _ & H). exact H.
    + intros cid k' Hcid.
      apply cluster_prediction_run; [exact Hcol |].
      change (rows (select not_noise ud)) with (filter not_noise (rows ud)).
      apply members_nonempty. rewrite clusters_of_not_noise. exact Hcid.
Qed.

Lemma process_user_data_run clock (ud : DataFrame) k :
  process_user_data clock ud event_weights k
  = match rows ud with
    | [] => inl (IndexError "single positional indexer is out-of-bounds")
    | r :: _ =>
        if has_event_type ud
        then inr (user_result_of (clock k) ud (user_id r), S k)
        else inl (KeyError "event_type")
    end.
Proof.
  unfold process_user_data.
  destruct (rows ud) as [| r t] eqn:Erows; [reflexivity |].
  erewrite bind_run by reflexivity.
  erewrite bind_run by reflexivity.
  destruct (has_event_type ud) eqn:Hcol.
  - erewrite bind_run by (apply mapM_weigh_event; exact Hcol).
    erewrite bind_run by (apply predictions_run; exact Hcol).
    unfold column_event_type. rewrite Hcol.
    erewrite bind_run by reflexivity.
    unfold ret, user_result_of. rewrite Erows. reflexivity.
  - apply bind_fail. simpl. apply bind_fail.
    unfold weigh_event, getitem_event_type. rewrite Hcol. reflexivity.
Qed.

Lemma process_user_data_inr clock (ud : DataFrame) k ur k' :
  process_user_data clock ud event_weights k = inr (ur, k') ->
  has_event_type ud = true /\
  k' = S k /\
  exists r t, rows ud = r :: t /\ ur = user_result_of (clock k) ud (user_id r).
Proof.
  rewrite process_user_data_run.
  destruct (rows ud) as [| r t]; [discriminate |].
  destruct (has_event_type ud); [| discriminate].
  intros H. injection H as <- <-.
  split; [reflexivity |]. split; [reflexivity |].
  exists r, t. split; reflexivity.
Qed.

(** *** Members of a cluster among the weighted events *)

Lemma members_of_weighed now cid (l : list Row) :
  members_of cid (map (weighed event_weights now) l)
  = map (weighed event_weights now) (filter (in_cluster cid) l).
Proof.
  unfold members_of. induction l as [| r t IH]; simpl; [reflexivity |].
  unfold in_cluster at 1. destruct (cluster r =? cid)%Z; simpl; congruence.
Qed.

Lemma base_weight_weighed now (l : list Row) :
  map base_weight (map (weighed event_weights now) l) = base_weights l.
Proof. unfold base_weights. rewrite map_map. reflexivity. Qed.

Lemma weighted_sum_weighed now (coord : Row -> Q) (wcoord : WeightedEvent -> Q)
    (l : list Row) :
  (forall r, wcoord (weighed event_weights now r) = coord r) ->
  Qsum (map (fun we => wcoord we * base_weight we)
            (map (weighed event_weights now) l))
  = Qsum (mul_each (map coord l) (base_weights l)).
Proof.
  intros Hc. induction l as [| r t IH]; simpl; [reflexivity |].
  rewrite Hc, IH. reflexivity.
Qed.

Lemma cluster_ids_of_predictions (l : list Row) (ids : list Z) :
  map cluster_id (map (prediction_of l) ids) = ids.
Proof. rewrite map_map. simpl. apply map_id. Qed.

(** What holds of every prediction in a user's result. *)
Lemma prediction_spec clock (ud : DataFrame) k ur k' p :
  process_user_data clock ud event_weights k = inr (ur, k') ->
  In p (cluster_predictions ur) ->
  let members := members_of (cluster_id p) (weighted_events ur) in
  cluster_id p <> (-1)%Z /\
  members <> [] /\
  0 < Qsum (map base_weight members) /\
  predicted_lat p
  = Qsum (map (fun we => we_lat we * base_weight we) members)
    / Qsum (map base_weight members) /\
  predicted_lon p
  = Qsum (map (fun we => we_lon we * base_weight we) members)
    / Qsum (map base_weight members) /\
  event_count p = List.length members /\
  confidence p = mean (map base_weight members).
Proof.
  intros Hrun Hp.
  apply process_user_data_inr in Hrun.
  destruct Hrun as (_ & _ & r & t & _ & ->). simpl in *.
  apply in_map_iff in Hp. destruct Hp as (cid & <- & Hcid). simpl.
  pose proof (members_nonempty _ _ Hcid) as Hne.
  apply in_clusters_of in Hcid. destruct Hcid as (_ & _ & _ & Hn).
  rewrite members_of_weighed, base_weight_weighed.
  rewrite (weighted_sum_weighed _ lat we_lat) by reflexivity.
  rewrite (weighted_sum_weighed _ lon we_lon) by reflexivity.
  rewrite length_map.
  repeat split; try assumption.
  - intros E. apply map_eq_nil in E. contradiction.
  - apply base_weights_pos. exact Hne.
Qed.

(** ** Centroid and confidence of a cluster *)

(** C1 (as the code has it): for every user and every non-noise cluster the
    user has an event in, there is exactly one prediction, and its
    [predicted_lat] and [predicted_lon] are the averages of the member
    events' [lat] and [lon] weighted by each member's [base_weight], the
    weight of its event type; [time_decay] and [night_boost] do not enter. *)
Theorem centroid_weighted_by_base_weight :
  forall clock ud k ur k',
    process_user_data clock ud event_weights k = inr (ur, k') ->
    (forall ev, In ev (rows ud) -> cluster ev <> (-1)%Z ->
                exists p, In p (cluster_predictions ur)
                          /\ cluster_id p = cluster ev) /\
    NoDup (map cluster_id (cluster_predictions ur)) /\
    (forall p, In p (cluster_predictions ur) ->
       let members := members_of (cluster_id p) (weighted_events ur) in
       cluster_id p <> (-1)%Z /\
       members <> [] /\
       0 < Qsum (map base_weight members) /\
       predicted_lat p
       == Qsum (map (fun we => we_lat we * base_weight we) members)
          / Qsum (map base_weight members) /\
       predicted_lon p
       == Qsum (map (fun we => we_lon we * base_weight we) members)
          / Qsum (map base_weight members) /\
       (forall we, In we members ->
                   base_weight we = weight_get event_weights (we_event_type we))).
Proof.
  intros clock ud k ur k' Hrun. split; [| split].
  - intros ev Hev Hn.
    apply process_user_data_inr in Hrun.
    destruct Hrun as (_ & _ & r & t & _ & ->). simpl.
    exists (prediction_of (rows ud) (cluster ev)). split; [| reflexivity].
    apply in_map. apply in_clusters_of. exists ev. auto.
  - apply process_user_data_inr in Hrun.
    destruct Hrun as (_ & _ & r & t & _ & ->). simpl.
    rewrite cluster_ids_of_predictions. apply NoDup_unique. apply Z.eqb_eq.
  - intros p Hp members.
    destruct (prediction_spec _ _ _ _ _ _ Hrun Hp)
      as (Hn & Hne & Hpos & Hlat & Hlon & _ & _).
    fold members in Hne, Hpos, Hlat, Hlon.
    repeat split; try assumption.
    + rewrite Hlat. reflexivity.
    + rewrite Hlon. reflexivity.
    + intros we Hwe. unfold members, members_of in Hwe.
      apply filter_In in Hwe. destruct Hwe as [Hwe _].
      apply process_user_data_inr in Hrun.
      destruct Hrun as (_ & _ & r & t & _ & ->). simpl in Hwe.
      apply in_map_iff in Hwe. destruct Hwe as (ev & <- & _). reflexivity.
Qed.

(** The two payments of U1 lie in cluster 0, which has its prediction. *)
Lemma centroid_of_two_payments :
  exists p,
    In p (cluster_predictions
            (user_result_of (Sample.hours 1000) Sample.paid_twice "U1"))
    /\ cluster_id p = 0%Z.
Proof.
  apply (proj1 (centroid_weighted_by_base_weight (Sample.clock_at 1000)
                  Sample.paid_twice 0%nat
                  (user_result_of (Sample.hours 1000) Sample.paid_twice "U1")
                  1%nat eq_refl)
           (Sample.row "U1" "upi" 1000 12.900 77.590 0)).
  - left. reflexivity.
  - vm_compute. discriminate.
Defined.

(** C1 fails as stated: of two payments in one cluster, one fresh and one
    48 hours old ([final_weight] 1 and 1/3), the code predicts the midpoint
    12.9005, not the [final_weight]-weighted 12.90025. *)
Lemma centroid_ignores_final_weight :
  exists ur p,
    process_user_data (Sample.clock_at 1000) Sample.paid_twice event_weights 0%nat
    = inr (ur, 1%nat)
    /\ cluster_predictions ur = [p]
    /\ map final_weight (members_of (cluster_id p) (weighted_events ur))
       = map final_weight (weighted_events ur)
    /\ predicted_lat p == 12.9005
    /\ spec_centroid we_lat (members_of (cluster_id p) (weighted_events ur))
       == 12.90025
    /\ ~ predicted_lat p
         == spec_centroid we_lat (members_of (cluster_id p) (weighted_events ur)).
Proof.
  eexists. eexists. split; [lazy; reflexivity |].
  split; [reflexivity |]. repeat split; Qclosed.
Qed.

(** C2 (as the code has it): the [confidence] of every prediction is the
    plain arithmetic mean of the member events' [base_weight] values, the
    weights of their event types; [final_weight] does not enter. *)
Theorem confidence_is_mean_base_weight :
  forall clock ud k ur k' p,
    process_user_data clock ud event_weights k = inr (ur, k') ->
    In p (cluster_predictions ur) ->
    let members := members_of (cluster_id p) (weighted_events ur) in
    members <> [] /\
    event_count p = List.length members /\
    confidence p == Qsum (map base_weight members) / len members /\
    (forall we, In we members ->
                base_weight we = weight_get event_weights (we_event_type we)).
Proof.
  intros clock ud k ur k' p Hrun Hp members.
  destruct (prediction_spec _ _ _ _ _ _ Hrun Hp)
    as (_ & Hne & _ & _ & _ & Hcount & Hconf).
  fold members in Hne, Hcount, Hconf.
  repeat split; try assumption.
  - rewrite Hconf. unfold mean, len. rewrite length_map. reflexivity.
  - intros we Hwe. unfold members, members_of in Hwe.
    apply filter_In in Hwe. destruct Hwe as [Hwe _].
    apply process_user_data_inr in Hrun.
    destruct Hrun as (_ & _ & r & t & _ & ->). simpl in Hwe.
    apply in_map_iff in Hwe. destruct Hwe as (ev & <- & _). reflexivity.
Qed.

(** The prediction for the two payments of U1 counts two events. *)
Lemma confidence_of_two_payments :
  event_count (prediction_of (rows Sample.paid_twice) 0) = 2%nat.
Proof.
  apply (proj1 (proj2 (confidence_is_mean_base_weight (Sample.clock_at 1000)
                         Sample.paid_twice 0%nat
                         (user_result_of (Sample.hours 1000) Sample.paid_twice "U1")
                         1%nat (prediction_of (rows Sample.paid_twice) 0)
                         eq_refl (or_introl eq_refl)))).
Defined.

(** C2 fails as stated: for the same two payments the code reports
    confidence 1, the mean of the base weights 1 and 1, not 2/3, the mean of
    the final weights 1 and 1/3. *)
Lemma confidence_ignores_final_weight :
  exists ur p,
    process_user_data (Sample.clock_at 1000) Sample.paid_twice event_weights 0%nat
    = inr (ur, 1%nat)
    /\ cluster_predictions ur = [p]
    /\ confidence p == 1
    /\ spec_confidence (members_of (cluster_id p) (weighted_events ur)) == 2 # 3
    /\ ~ confidence p
         == spec_confidence (members_of (cluster_id p) (weighted_events ur)).
Proof.
  eexists. eexists. split; [lazy; reflexivity |].
  split; [reflexivity |]. repeat split; Qclosed.
Qed.

(** ** No division by zero *)





(** ** Noise *)

Lemma for_each_ext_in {A B} (body1 body2 : A -> M (option B)) l k :
  (forall x k', In x l -> body1 x k' = body2 x k') ->
  for_each body1 l k = for_each body2 l k.
Proof.
  revert k. induction l as [| x t IH]; intros k H; simpl; [reflexivity |].
  unfold bind at 1 3. rewrite (H x k) by (left; reflexivity).
  destruct (body2 x k) as [e | [o k1]]; [reflexivity |].
  unfold bind. rewrite IH by (intros; apply H; right; assumption).
  reflexivity.
Qed.

Lemma for_each_skip {A B} (body : A -> M (option B)) (keep : A -> bool) l k :
  (forall x k', keep x = false -> body x k' = inr (None, k')) ->
  for_each body l k = for_each body (filter keep l) k.
Proof.
  intros H. revert k. induction l as [| x t IH]; intros k; simpl; [reflexivity |].
  destruct (keep x) eqn:E; simpl.
  - unfold bind at 1 3. destruct (body x k) as [e | [o k1]]; [reflexivity |].
    unfold bind. rewrite IH. reflexivity.
  - erewrite bind_run by (apply H; exact E).
    unfold bind, ret. rewrite IH.
    destruct (for_each body (filter keep t) k) as [e | [ys k1]]; reflexivity.
Qed.

Lemma for_each_in {A B} (body : A -> M (option B)) l :
  forall k ys k' y,
    for_each body l k = inr (ys, k') -> In y ys ->
    exists x k1 k2, In x l /\ body x k1 = inr (Some y, k2).
Proof.
  induction l as [| x t IH]; simpl; intros k ys k' y H Hy.
  - run_inv H. subst. contradiction.
  - run_inv H. run_inv H. run_inv H. subst.
    destruct a as [y0 |].
    + destruct Hy as [<- | Hy]; [eauto 6 |].
      destruct (IH _ _ _ _ Hrun0 Hy) as (x' & k1 & k2 & Hx & Hb). eauto 7.
    + destruct (IH _ _ _ _ Hrun0 Hy) as (x' & k1 & k2 & Hx & Hb). eauto 7.
Qed.

Lemma filter_map_comm {A B} (f : A -> B) (p : B -> bool) (l : list A) :
  filter p (map f l) = map f (filter (fun x => p (f x)) l).
Proof.
  induction l as [| a t IH]; simpl; [reflexivity |].
  destruct (p (f a)); simpl; congruence.
Qed.

Lemma cluster_info_not_noise (df : DataFrame) (cid : Z) k :
  cid <> (-1)%Z ->
  cluster_info_of df cid k = cluster_info_of (select not_noise df) cid k.
Proof.
  intros Hn. unfold cluster_info_of.
  destruct (cid =? -1)%Z; [reflexivity |].
  assert (select (fun r => (cluster r =? cid)%Z) (select not_noise df)
          = select (fun r => (cluster r =? cid)%Z) df) as ->; [| reflexivity].
  unfold select. simpl. f_equal. apply (members_not_noise cid _ Hn).
Qed.

Lemma get_cluster_info_not_noise (df : DataFrame) k :
  get_cluster_info df k = get_cluster_info (select not_noise df) k.
Proof.
  unfold get_cluster_info.
  rewrite (for_each_skip _ (fun cid => negb (cid =? -1)%Z)).
  - rewrite (filter_unique Z.eqb Z.eqb_eq), filter_map_comm.
    change (rows (select not_noise df)) with (filter not_noise (rows df)).
    apply for_each_ext_in. intros cid k' Hcid.
    apply cluster_info_not_noise.
    apply (proj1 (in_unique Z.eqb Z.eqb_eq _ _)) in Hcid.
    apply in_map_iff in Hcid. destruct Hcid as (r & <- & Hr).
    apply filter_In in Hr. destruct Hr as [_ Hr].
    apply negb_true_iff, Z.eqb_neq in Hr. exact Hr.
  - intros cid k' Hcid. apply negb_false_iff in Hcid.
    unfold cluster_info_of. rewrite Hcid. reflexivity.
Qed.

(** C7: no event labelled [-1] enters a ClusterPrediction, a cluster
    confidence, or the centroid and bounding box of [cluster_info].  Two
    frames of a user that differ in noise rows only give the same
    predictions, with the same confidences, and the same primary prediction;
    no prediction is for cluster [-1] and every member event of a prediction
    is labelled with the prediction's cluster; [get_cluster_info] returns
    what it returns on the frame with the noise rows removed, and has no
    entry for [-1]. *)
Theorem noise_never_included :
  (forall clock clock' ud ud' k k2 ur ur' k' k2',
      process_user_data clock ud event_weights k = inr (ur, k') ->
      process_user_data clock' ud' event_weights k2 = inr (ur', k2') ->
      filter not_noise (rows ud) = filter not_noise (rows ud') ->
      cluster_predictions ur = cluster_predictions ur'
      /\ primary_prediction ur = primary_prediction ur') /\
  (forall clock ud k ur k' p,
      process_user_data clock ud event_weights k = inr (ur, k') ->
      In p (cluster_predictions ur) ->
      cluster_id p <> (-1)%Z
      /\ event_count p
         = List.length (members_of (cluster_id p) (weighted_events ur))
      /\ forall we, In we (members_of (cluster_id p) (weighted_events ur)) ->
                    we_cluster we = cluster_id p) /\
  (forall df k, get_cluster_info df k = get_cluster_info (select not_noise df) k) /\
  (forall df k info k' ci,
      get_cluster_info df k = inr (info, k') -> In ci info ->
      ci_cluster_id ci <> (-1)%Z).
Proof.
  split; [| split; [| split]].
  - intros clock clock' ud ud' k k2 ur ur' k' k2' H1 H2 E.
    apply process_user_data_inr in H1, H2.
    destruct H1 as (_ & _ & r & t & _ & ->).
    destruct H2 as (_ & _ & r' & t' & _ & ->). simpl.
    assert (map (prediction_of (rows ud)) (clusters_of (rows ud))
            = map (prediction_of (rows ud')) (clusters_of (rows ud'))) as Hp.
    { rewrite <- (clusters_of_not_noise (rows ud)).
      rewrite <- (clusters_of_not_noise (rows ud')). rewrite <- E.
      apply map_ext_in. intros cid Hcid.
      rewrite clusters_of_not_noise in Hcid.
      apply in_clusters_of in Hcid. destruct Hcid as (_ & _ & _ & Hn).
      rewrite <- (prediction_not_noise cid (rows ud) Hn).
      rewrite <- (prediction_not_noise cid (rows ud') Hn).
      rewrite E. reflexivity. }
    rewrite Hp. split; reflexivity.
  - intros clock ud k ur k' p Hrun Hp.
    destruct (prediction_spec _ _ _ _ _ _ Hrun Hp)
      as (Hn & _ & _ & _ & _ & Hcount & _).
    split; [exact Hn |]. split; [exact Hcount |].
    intros we Hwe. apply filter_In in Hwe. destruct Hwe as [_ Hwe].
    apply Z.eqb_eq in Hwe. exact Hwe.
  - apply get_cluster_info_not_noise.
  - intros df k info k' ci Hrun Hci.
    destruct (for_each_in _ _ _ _ _ _ Hrun Hci) as (cid & k1 & k2 & _ & Hb).
    unfold cluster_info_of in Hb.
    destruct (cid =? -1)%Z eqn:E; [discriminate |].
    apply Z.eqb_neq in E.
    run_inv Hb. run_inv Hb. injection H as <-. simpl. exact E.
Qed.

(** A noise event among the events of U1 changes no prediction. *)
Lemma noise_row_changes_nothing :
  cluster_predictions (user_result_of (Sample.hours 1000) Sample.with_noise "U1")
  = cluster_predictions (user_result_of (Sample.hours 1000) Sample.without_noise "U1").
Proof.
  apply (proj1 noise_never_included
           (Sample.clock_at 1000) (Sample.clock_at 1000)
           Sample.with_noise Sample.without_noise 0%nat 0%nat
           (user_result_of (Sample.hours 1000) Sample.with_noise "U1")
           (user_result_of (Sample.hours 1000) Sample.without_noise "U1")
           1%nat 1%nat eq_refl eq_refl eq_refl).
Defined.

(** ** The run as a whole *)

Lemma set_cluster_inr events labels k df k' :
  set_cluster events labels k = inr (df, k') ->
  k' = k /\
  has_event_type df = existsb (fun e => is_some (raw_event_type e)) events /\
  List.length (rows df) = List.length events /\
  map user_id (rows df) = map raw_user_id events.
Proof.
  unfold set_cluster.
  destruct (List.length labels =? List.length events)%nat eqn:E; [| discriminate].
  apply Nat.eqb_eq in E. intros H. injection H as <- <-. simpl.
  split; [reflexivity |]. split; [reflexivity |].
  rewrite length_map, length_combine, E, Nat.min_id. split; [reflexivity |].
  rewrite map_map. simpl.
  clear k. revert labels E. induction events as [| e t IH]; intros labels E.
  - reflexivity.
  - destruct labels as [| c cs]; [discriminate |]. simpl. f_equal.
    apply IH. simpl in E. lia.
Qed.

Lemma timezone_now_inr clock k now k' :
  timezone_now clock k = inr (now, k') -> now = clock k /\ k' = S k.
Proof. unfold timezone_now. intros H. injection H as <- <-. auto. Qed.

(** What a successful run of the [try] block went through. *)
Lemma analyse_inr clock fit_predict events k r k' :
  analyse clock fit_predict events k = inr (r, k') ->
  exists df,
    set_cluster events
      (fit_predict (map (fun e => (raw_lat e, raw_lon e)) events)) k
    = inr (df, k)
    /\ Forall2 (fun uid ur =>
                  exists k1 k2,
                    process_user_data clock (select (of_user uid) df)
                      event_weights k1 = inr (ur, k2))
               (unique String.eqb (map user_id (rows df))) (user_results r)
    /\ summary_confidence (summary r)
       = calculate_overall_confidence (user_results r)
    /\ has_event_type df = true.
Proof.
  unfold analyse. intros H.
  run_inv H. rename a into df.
  pose proof (set_cluster_inr _ _ _ _ _ Hrun) as (-> & _).
  run_inv H. rename a into results.
  run_inv H. run_inv H. run_inv H. run_inv H. run_inv H. run_inv H.
  subst r. simpl. exists df. split; [exact Hrun |].
  split; [eapply mapM_inr; eassumption |]. split; [reflexivity |].
  unfold column_event_type in Hrun1.
  destruct (has_event_type df); [reflexivity | discriminate].
Qed.

Lemma mean_confidences (results : list UserResult) :
  results <> [] ->
  calculate_overall_confidence results
  = Qsum (map confidence_or_zero results) / len results.
Proof.
  destruct results as [| r t]; [congruence |]. intros _.
  unfold calculate_overall_confidence, mean, len.
  rewrite length_map. reflexivity.
Qed.

Lemma Forall2_in_r {A B} (R : A -> B -> Prop) l l' y :
  Forall2 R l l' -> In y l' -> exists x, In x l /\ R x y.
Proof.
  induction 1 as [| a b t t' Hab Ht IH]; simpl; [contradiction |].
  intros [<- | Hy].
  - exists a. auto.
  - destruct (IH Hy) as (x & Hx & Hxy). exists x. auto.
Qed.

(** ** Overall confidence *)

(** C5 (as the code has it): the overall confidence of a report is the
    arithmetic mean over all users of the confidence of the user's primary
    prediction, where a user without any cluster prediction contributes 0.0
    (not the 0.3 of its fallback location prediction); for zero users it is
    0.0. *)
Theorem overall_confidence_counts_fallback_as_zero :
  calculate_overall_confidence [] = 0.0 /\
  (forall results,
      results <> [] ->
      calculate_overall_confidence results
      == Qsum (map confidence_or_zero results) / len results) /\
  (forall result,
      (primary_prediction result = None -> confidence_or_zero result = 0.0) /\
      (forall p, primary_prediction result = Some p ->
                 confidence_or_zero result = confidence p)) /\
  (forall clock fit_predict events r,
      process_kalman_cluster_fusion clock fit_predict events = Report r ->
      user_results r <> [] /\
      summary_confidence (summary r)
      == Qsum (map confidence_or_zero (user_results r)) / len (user_results r) /\
      (forall ur, In ur (user_results r) ->
                  (primary_prediction ur = None <-> cluster_predictions ur = []))).
Proof.
  split; [reflexivity |]. split; [| split].
  - intros results Hne. rewrite (mean_confidences results Hne). reflexivity.
  - intros result. unfold confidence_or_zero. split.
    + intros ->. reflexivity.
    + intros p ->. reflexivity.
  - intros clock fit_predict events r H.
    unfold process_kalman_cluster_fusion in H.
    destruct events as [| e events]; [discriminate |].
    destruct (analyse clock fit_predict (e :: events) 0%nat) as [x | [r' k']] eqn:E;
      [discriminate |].
    injection H as ->.
    apply analyse_inr in E. destruct E as (df & Hdf & Hall & Hconf & _).
    apply set_cluster_inr in Hdf. destruct Hdf as (_ & _ & _ & Hids).
    assert (user_results r <> []) as Hne.
    { rewrite Hids in Hall. simpl in Hall. inversion Hall. discriminate. }
    split; [exact Hne |]. split.
    + rewrite Hconf, (mean_confidences _ Hne). reflexivity.
    + intros ur Hur.
      destruct (Forall2_in_r _ _ _ ur Hall Hur) as (uid & _ & k1 & k2 & Hrun).
      apply process_user_data_inr in Hrun.
      destruct Hrun as (_ & _ & r0 & t0 & _ & ->). simpl.
      destruct (map (prediction_of _) _); simpl; split; congruence.
Qed.

(** The report on the two payments of U1 has a user result. *)
Lemma overall_confidence_of_two_payments :
  exists r,
    process_kalman_cluster_fusion (Sample.clock_at 1000) Sample.one_cluster
      Sample.two_payments = Report r
    /\ user_results r <> [].
Proof.
  eexists. split; [lazy; reflexivity |].
  apply (proj2 (proj2 (proj2 overall_confidence_counts_fallback_as_zero))
           (Sample.clock_at 1000) Sample.one_cluster Sample.two_payments
           _ eq_refl).
Defined.

(** C5 fails as stated: for a batch of one user with a single noise event,
    the user's location prediction is the fallback with confidence 0.3, and
    the overall confidence of the report is 0, not 0.3. *)
Lemma fallback_counts_as_zero :
  exists r lp,
    process_kalman_cluster_fusion (Sample.clock_at 1000) Sample.all_noise
      Sample.lone_login = Report r
    /\ location_predictions r = [("U2", lp)]
    /\ prediction_type lp = "simple_average"
    /\ lp_confidence lp = 0.3
    /\ summary_confidence (summary r) == 0
    /\ spec_overall_confidence (user_results r) == 0.3
    /\ ~ summary_confidence (summary r)
         == spec_overall_confidence (user_results r).
Proof.
  eexists. eexists. split; [lazy; reflexivity |].
  split; [reflexivity |]. repeat split; Qclosed.
Qed.

(** ** Records without [event_type] *)





Lemma rows_of_user (df : DataFrame) (uid : string) :
  In uid (map user_id (rows df)) ->
  exists r t, rows (select (of_user uid) df) = r :: t /\ user_id r = uid.
Proof.
  intros H. apply in_map_iff in H. destruct H as (r & Hr & Hin).
  simpl. destruct (filter (of_user uid) (rows df)) as [| r0 t] eqn:E.
  - assert (In r (filter (of_user uid) (rows df))) as Hf.
    { apply filter_In. split; [exact Hin |]. unfold of_user.
      apply String.eqb_eq. exact Hr. }
    rewrite E in Hf. contradiction.
  - exists r0, t. split; [reflexivity |].
    assert (In r0 (filter (of_user uid) (rows df))) as Hf by (rewrite E; left; reflexivity).
    apply filter_In in Hf. destruct Hf as [_ Hf].
    apply String.eqb_eq. exact Hf.
Qed.








(** ** Two runs under two clocks *)

Lemma forget_user_result_of now1 now2 (ud : DataFrame) (uid : string) :
  forget_user (user_result_of now1 ud uid) = forget_user (user_result_of now2 ud uid).
Proof.
  unfold forget_user, user_result_of. simpl. f_equal.
  rewrite !map_map. reflexivity.
Qed.

Lemma sim_process_user_data clock1 clock2 (ud : DataFrame) :
  sim same_but_clock (process_user_data clock1 ud event_weights)
                     (process_user_data clock2 ud event_weights).
Proof.
  intros k1 k2. rewrite !process_user_data_run.
  destruct (rows ud) as [| r t]; [reflexivity |].
  destruct (has_event_type ud); [| reflexivity].
  apply forget_user_result_of.
Qed.

Lemma sim_set_cluster events labels :
  sim eq (set_cluster events labels) (set_cluster events labels).
Proof.
  unfold set_cluster. destruct (_ =? _)%nat; [apply sim_ret | apply sim_raise].
  reflexivity.
Qed.

Lemma sim_column_event_type (df : DataFrame) :
  sim eq (column_event_type df) (column_event_type df).
Proof.
  unfold column_event_type.
  destruct (has_event_type df); [apply sim_ret | apply sim_raise]. reflexivity.
Qed.

Lemma sim_timezone_now clock1 clock2 :
  sim (fun _ _ => True) (timezone_now clock1) (timezone_now clock2).
Proof. intros k1 k2. exact I. Qed.

Lemma sim_detect_anomalies (df : DataFrame) :
  sim eq (detect_anomalies df) (detect_anomalies df).
Proof.
  unfold detect_anomalies.
  eapply sim_bind.
  { apply sim_for_each. intros uid. cbv zeta.
    destruct (_ && _); apply sim_ret; reflexivity. }
  intros by_user ? <-.
  eapply sim_bind.
  { apply sim_for_each. intros cid.
    destruct (cid =? -1)%Z; [apply sim_ret; reflexivity |]. cbv zeta.
    eapply sim_bind; [apply sim_column_event_type |].
    intros col ? <-. destruct (_ && _); apply sim_ret; reflexivity. }
  intros by_cluster ? <-. apply sim_ret. reflexivity.
Qed.

Lemma sim_get_cluster_info (df : DataFrame) :
  sim eq (get_cluster_info df) (get_cluster_info df).
Proof.
  unfold get_cluster_info. apply sim_for_each. intros cid.
  unfold cluster_info_of. destruct (cid =? -1)%Z; [apply sim_ret; reflexivity |].
  eapply sim_bind; [apply sim_column_event_type |].
  intros col ? <-. apply sim_ret. reflexivity.
Qed.

Lemma forget_dict_set d (uid : string) (lp : LocationPrediction) :
  map forget_entry (dict_set d uid lp)
  = dict_set (map forget_entry d) uid (forget_location lp).
Proof.
  induction d as [| [u v] d IH]; simpl; [reflexivity |].
  destruct (String.eqb u uid); simpl; [reflexivity |]. rewrite IH. reflexivity.
Qed.

Lemma sim_location_predictions clock1 clock2 (df : DataFrame) results1 results2 :
  Forall2 same_but_clock results1 results2 ->
  forall p1 p2,
    map forget_entry p1 = map forget_entry p2 ->
    sim (fun o1 o2 => map forget_entry o1 = map forget_entry o2)
        (location_predictions_loop clock1 df results1 p1)
        (location_predictions_loop clock2 df results2 p2).
Proof.
  induction 1 as [| u1 u2 t1 t2 Hu Ht IH]; intros p1 p2 Hp; simpl.
  - apply sim_ret. exact Hp.
  - assert (ur_user_id u1 = ur_user_id u2) as Huid
        by exact (f_equal ur_user_id Hu).
    assert (primary_prediction u1 = primary_prediction u2) as Hprim
        by exact (f_equal primary_prediction Hu).
    rewrite Huid, Hprim.
    destruct (primary_prediction u2) as [pred |].
    + eapply sim_bind; [apply sim_timezone_now |]. intros now1 now2 _.
      apply IH. rewrite !forget_dict_set, Hp. reflexivity.
    + destruct (0 <? _)%nat.
      * eapply sim_bind; [apply sim_timezone_now |]. intros now1 now2 _.
        apply IH. rewrite !forget_dict_set, Hp. reflexivity.
      * apply IH. exact Hp.
Qed.

Lemma same_overall_confidence results1 results2 :
  Forall2 same_but_clock results1 results2 ->
  calculate_overall_confidence results1 = calculate_overall_confidence results2.
Proof.
  intros H.
  assert (map confidence_or_zero results1 = map confidence_or_zero results2) as E.
  { induction H as [| u1 u2 t1 t2 Hu Ht IH]; simpl; [reflexivity |].
    f_equal; [| exact IH]. unfold confidence_or_zero.
    rewrite (f_equal primary_prediction Hu : primary_prediction u1 = primary_prediction u2).
    reflexivity. }
  unfold calculate_overall_confidence.
  destruct H; simpl in *; [reflexivity |]. rewrite E. reflexivity.
Qed.

Lemma same_user_results results1 results2 :
  Forall2 same_but_clock results1 results2 ->
  map forget_user results1 = map forget_user results2.
Proof. induction 1; simpl; [reflexivity |]. f_equal; assumption. Qed.

Lemma sim_analyse clock1 clock2 fit_predict events :
  sim (fun r1 r2 => forget_report r1 = forget_report r2)
      (analyse clock1 fit_predict events) (analyse clock2 fit_predict events).
Proof.
  unfold analyse.
  eapply sim_bind; [apply sim_set_cluster |]. intros df ? <-.
  eapply sim_bind.
  { apply (sim_mapM eq same_but_clock); [apply Forall2_eq_refl |].
    intros uid ? <-. apply sim_process_user_data. }
  intros results1 results2 Hres.
  eapply sim_bind; [apply sim_column_event_type |]. intros types ? <-.
  eapply sim_bind; [apply sim_timezone_now |]. intros now1 now2 _.
  eapply sim_bind; [apply sim_detect_anomalies |]. intros found ? <-.
  eapply sim_bind; [apply sim_get_cluster_info |]. intros info ? <-.
  eapply sim_bind.
  { apply (sim_location_predictions clock1 clock2 df _ _ Hres [] []). reflexivity. }
  intros p1 p2 Hp. apply sim_ret.
  unfold forget_report, forget_summary. simpl.
  rewrite (same_overall_confidence _ _ Hres), (same_user_results _ _ Hres).
  rewrite Hp. reflexivity.
Qed.

(** *** Two runs under clocks that read the same *)

Lemma mapM_ext {A B} (f g : A -> M B) (l : list A) :
  (forall x k, f x k = g x k) -> forall k, mapM f l k = mapM g l k.
Proof.
  intros H. induction l as [| x t IH]; intros k; simpl; [reflexivity |].
  unfold bind. rewrite H. destruct (g x k) as [e | [y k1]]; [reflexivity |].
  rewrite IH. reflexivity.
Qed.

Lemma location_predictions_ext clock1 clock2 (df : DataFrame) results :
  (forall k, clock1 k = clock2 k) ->
  forall predictions k,
    location_predictions_loop clock1 df results predictions k
    = location_predictions_loop clock2 df results predictions k.
Proof.
  intros H. induction results as [| result rest IH]; intros predictions k; simpl.
  - reflexivity.
  - destruct (primary_prediction result).
    + unfold bind, timezone_now. rewrite H. apply IH.
    + destruct (0 <? _)%nat; [| apply IH].
      unfold bind, timezone_now. rewrite H. apply IH.
Qed.

Lemma bind_ext {A B} (m1 m2 : M A) (f1 f2 : A -> M B) :
  (forall k, m1 k = m2 k) ->
  (forall a k, f1 a k = f2 a k) ->
  forall k, bind m1 f1 k = bind m2 f2 k.
Proof.
  intros Hm Hf k. unfold bind. rewrite Hm.
  destruct (m2 k) as [e | [a k1]]; [reflexivity | apply Hf].
Qed.

Lemma analyse_ext clock1 clock2 fit_predict events :
  (forall k, clock1 k = clock2 k) ->
  forall k, analyse clock1 fit_predict events k = analyse clock2 fit_predict events k.
Proof.
  intros H. unfold analyse.
  apply bind_ext; [reflexivity |]. intros df.
  apply bind_ext.
  { apply mapM_ext. intros uid k. rewrite !process_user_data_run, H. reflexivity. }
  intros results.
  apply bind_ext; [reflexivity |]. intros types.
  apply bind_ext; [intros k; unfold timezone_now; rewrite H; reflexivity |].
  intros now.
  apply bind_ext; [reflexivity |]. intros found.
  apply bind_ext; [reflexivity |]. intros info.
  apply bind_ext; [| reflexivity].
  apply location_predictions_ext. exact H.
Qed.

(** ** Reruns *)

(** C6 (as the code has it): the engine takes no reference instant; it
    reads the wall clock itself, once per user.  Whatever the clock reads,
    two runs on the same batch agree on everything that is not a reading of
    the clock: both fail alike, or both report the same clusters, cluster
    labels, predictions, [base_weight] and [night_boost] of every event.
    [time_decay] and [final_weight] follow the clock reading made for the
    event's user; two runs whose clocks read the same give the same
    output. *)
Theorem weights_follow_the_wall_clock :
  forall clock1 clock2 fit_predict events,
    forget_output (process_kalman_cluster_fusion clock1 fit_predict events)
    = forget_output (process_kalman_cluster_fusion clock2 fit_predict events) /\
    ((forall k, clock1 k = clock2 k) ->
     process_kalman_cluster_fusion clock1 fit_predict events
     = process_kalman_cluster_fusion clock2 fit_predict events) /\
    (forall r ur we,
        process_kalman_cluster_fusion clock1 fit_predict events = Report r ->
        In ur (user_results r) -> In we (weighted_events ur) ->
        final_weight we = base_weight we * time_decay we * night_boost we /\
        exists k,
          time_decay we
          = time_decay_of (time_diff_hours (clock1 k) (we_timestamp we))).
Proof.
  intros clock1 clock2 fit_predict events. split; [| split].
  - unfold process_kalman_cluster_fusion.
    destruct events as [| e t]; [reflexivity |].
    pose proof (sim_analyse clock1 clock2 fit_predict (e :: t) 0%nat 0%nat) as H.
    destruct (analyse clock1 fit_predict (e :: t) 0%nat) as [e1 | [r1 k1]],
             (analyse clock2 fit_predict (e :: t) 0%nat) as [e2 | [r2 k2]];
      simpl; try contradiction; congruence.
  - intros H. unfold process_kalman_cluster_fusion.
    destruct events as [| e t]; [reflexivity |].
    rewrite (analyse_ext clock1 clock2 fit_predict (e :: t) H). reflexivity.
  - intros r ur we Hrun Hur Hwe.
    unfold process_kalman_cluster_fusion in Hrun.
    destruct events as [| e t]; [discriminate |].
    destruct (analyse clock1 fit_predict (e :: t) 0%nat) as [x | [r' k']] eqn:E;
      [discriminate |].
    injection Hrun as ->.
    apply analyse_inr in E. destruct E as (df & _ & Hall & _).
    destruct (Forall2_in_r _ _ _ ur Hall Hur) as (uid & _ & k1 & k2 & Hud).
    apply process_user_data_inr in Hud.
    destruct Hud as (_ & _ & r0 & t0 & _ & ->). simpl in Hwe.
    apply in_map_iff in Hwe. destruct Hwe as (ev & <- & _). simpl.
    split; [reflexivity |]. exists k1. reflexivity.
Qed.

(** Two clocks that read 1000 h throughout give the same report. *)
Lemma rerun_under_same_readings :
  process_kalman_cluster_fusion (Sample.clock_at 1000) Sample.one_cluster
    Sample.two_payments
  = process_kalman_cluster_fusion (fun k => Sample.hours (1000 + 0 * Z.of_nat k))
      Sample.one_cluster Sample.two_payments.
Proof.
  apply (proj1 (proj2 (weights_follow_the_wall_clock
                         (Sample.clock_at 1000)
                         (fun k => Sample.hours (1000 + 0 * Z.of_nat k))
                         Sample.one_cluster Sample.two_payments))).
  intros k. reflexivity.
Defined.

(** C6 fails as stated: the same batch analysed when the clock reads 1000 h
    and again when it reads 1024 h gets other weights: the payment made at
    1000 h has [time_decay] 1 in the first run and 2/3 in the second. *)
Lemma rerun_a_day_later :
  exists r1 r2 ur1 ur2 we1 we2 rest1 rest2,
    process_kalman_cluster_fusion (Sample.clock_at 1000) Sample.one_cluster
      Sample.two_payments = Report r1
    /\ process_kalman_cluster_fusion (Sample.clock_at 1024) Sample.one_cluster
         Sample.two_payments = Report r2
    /\ user_results r1 = [ur1] /\ user_results r2 = [ur2]
    /\ weighted_events ur1 = we1 :: rest1
    /\ weighted_events ur2 = we2 :: rest2
    /\ we_timestamp we1 = we_timestamp we2
    /\ time_decay we1 == 1
    /\ time_decay we2 == 2 # 3
    /\ ~ time_decay we1 == time_decay we2
    /\ ~ final_weight we1 == final_weight we2.
Proof.
  do 8 eexists.
  split; [lazy; reflexivity |]. split; [lazy; reflexivity |].
  split; [reflexivity |]. split; [reflexivity |].
  split; [reflexivity |]. split; [reflexivity |].
  repeat split; Qclosed.
Qed.

(** * Further properties of the engine *)

(** ** Sums and means *)

Lemma len_cons {A} (x : A) (t : list A) : len (x :: t) == len t + 1.
Proof.
  unfold len. cbn [List.length]. rewrite Nat2Z.inj_succ, <- Z.add_1_r.
  rewrite inject_Z_plus. reflexivity.
Qed.

Lemma len_nonneg {A} (l : list A) : 0 <= len l.
Proof.
  unfold len. change 0 with (inject_Z 0). rewrite <- Zle_Qle. lia.
Qed.

Lemma len_pos {A} (l : list A) : l <> [] -> 0 < len l.
Proof.
  destruct l as [| x t]; [congruence |]. intros _.
  pose proof (len_cons x t). pose proof (len_nonneg t). lra.
Qed.

Lemma Qsum_bounds (a b : Q) (l : list Q) :
  Forall (fun x => a <= x <= b) l ->
  a * len l <= Qsum l <= b * len l.
Proof.
  induction 1 as [| x t Hx Ht IH].
  - change (len (@nil Q)) with 0. simpl. lra.
  - pose proof (len_cons x t) as E. simpl Qsum. nra.
Qed.

Lemma mean_bounds (a b : Q) (l : list Q) :
  l <> [] -> Forall (fun x => a <= x <= b) l -> a <= mean l <= b.
Proof.
  intros Hne Hall. pose proof (len_pos l Hne) as Hpos.
  destruct (Qsum_bounds a b l Hall) as [Hlo Hhi]. unfold mean. split.
  - apply Qle_shift_div_l; assumption.
  - apply Qle_shift_div_r; assumption.
Qed.


(** ** The primary prediction *)




(** ** Predictions of a user *)




(** ** Weighted events of a user *)

Lemma night_boost_values (h : Z) :
  night_boost_of h = 1.0 \/ night_boost_of h = 1.2.
Proof. destruct (night_boost_cases h) as [[_ ->] | [_ ->]]; auto. Qed.

(** X3: a user's result lists one weighted event per event of the user, in
    the order of the events, with the event's own type, timestamp, position
    and cluster label.  The final weight of an event is never negative, is
    zero exactly when the event is 72 hours old or older at the clock
    reading made for the user, and is at most 1.2 for an event that is not
    dated after that reading. *)
Theorem weighted_events_follow_events :
  forall clock ud k ur k',
    process_user_data clock ud event_weights k = inr (ur, k') ->
    total_events ur = List.length (weighted_events ur) /\
    Forall2 (fun ev we =>
               we_event_type we = event_type ev /\
               we_timestamp we = timestamp ev /\
               we_lat we = lat ev /\ we_lon we = lon ev /\
               we_cluster we = cluster ev)
            (rows ud) (weighted_events ur) /\
    (forall we, In we (weighted_events ur) ->
       let h := time_diff_hours (clock k) (we_timestamp we) in
       0.5 <= base_weight we <= 1 /\
       (night_boost we = 1.0 \/ night_boost we = 1.2) /\
       0 <= final_weight we /\
       (final_weight we == 0 <-> 72 <= h) /\
       (0 <= h -> final_weight we <= 1.2)).
Proof.
  intros clock ud k ur k' Hrun.
  apply process_user_data_inr in Hrun.
  destruct Hrun as (_ & _ & r & t & _ & ->). simpl.
  split; [rewrite length_map; reflexivity |]. split.
  - clear. induction (rows ud) as [| ev l IH]; simpl; constructor; auto.
  - intros we Hwe. apply in_map_iff in Hwe. destruct Hwe as (ev & <- & _).
    cbn [weighed base_weight night_boost final_weight we_timestamp].
    set (h := time_diff_hours (clock k) (timestamp ev)).
    pose proof (weight_get_bounds (event_type ev)) as Hb.
    pose proof (div_72 h) as D.
    set (b := weight_get event_weights (event_type ev)) in *.
    split; [exact Hb |]. split; [apply night_boost_values |].
    assert (0 < b) as Hb0 by lra.
    destruct (night_boost_values (hour (timestamp ev))) as [-> | ->];
      destruct (time_decay_cases h) as [[Hlt ->] | [Hge ->]].
    + assert (0 < 1 - h / 72) as Hd by lra.
      pose proof (Qmult_lt_0_compat _ _ Hb0 Hd) as Hprod.
      repeat split; try lra.
      intros Hh. assert (1 - h / 72 <= 1) as Hd1 by lra.
      pose proof (Qmult_le_compat_r _ _ _ (proj2 Hb) (Qlt_le_weak _ _ Hd)).
      lra.
    + repeat split; intros; try lra; try (ring_simplify; lra).
    + assert (0 < 1 - h / 72) as Hd by lra.
      pose proof (Qmult_lt_0_compat _ _ Hb0 Hd) as Hprod.
      repeat split; try lra.
      intros Hh. assert (1 - h / 72 <= 1) as Hd1 by lra.
      pose proof (Qmult_le_compat_r _ _ _ (proj2 Hb) (Qlt_le_weak _ _ Hd)).
      lra.
    + repeat split; intros; try lra; try (ring_simplify; lra).
Qed.

(** The two payments of U1 give two weighted events. *)
Lemma weighted_events_of_two_payments :
  total_events (user_result_of (Sample.hours 1000) Sample.paid_twice "U1")
  = List.length
      (weighted_events (user_result_of (Sample.hours 1000) Sample.paid_twice "U1")).
Proof.
  apply (proj1 (weighted_events_follow_events (Sample.clock_at 1000)
                  Sample.paid_twice 0%nat _ 1%nat eq_refl)).
Defined.

(** ** Bookkeeping of a user's result *)

Lemma existsb_unique (x : Z) (l : list Z) :
  existsb (Z.eqb x) (unique Z.eqb l) = existsb (Z.eqb x) l.
Proof.
  destruct (existsb (Z.eqb x) l) eqn:E.
  - apply existsb_exists in E. destruct E as (y & Hy & Hxy).
    apply existsb_exists. exists y. split; [| exact Hxy].
    apply (in_unique Z.eqb Z.eqb_eq). exact Hy.
  - destruct (existsb (Z.eqb x) (unique Z.eqb l)) eqn:E'; [| reflexivity].
    apply existsb_exists in E'. destruct E' as (y & Hy & Hxy).
    apply (proj1 (in_unique Z.eqb Z.eqb_eq _ _)) in Hy.
    assert (existsb (Z.eqb x) l = true) as C
        by (apply existsb_exists; exists y; auto).
    congruence.
Qed.

Lemma length_without (x : Z) (l : list Z) :
  NoDup l ->
  List.length l
  = (List.length (filter (fun c => negb (c =? x)%Z) l)
     + (if existsb (Z.eqb x) l then 1 else 0))%nat.
Proof.
  induction 1 as [| a t Ha Ht IH]; simpl; [reflexivity |].
  destruct (a =? x)%Z eqn:E; simpl.
  - apply Z.eqb_eq in E. subst a. rewrite Z.eqb_refl. simpl.
    rewrite IH.
    destruct (existsb (Z.eqb x) t) eqn:Ex; [| lia].
    apply existsb_exists in Ex. destruct Ex as (y & Hy & Hxy).
    apply Z.eqb_eq in Hxy. subst y. contradiction.
  - rewrite Z.eqb_sym, E. simpl. rewrite IH. lia.
Qed.

Lemma clusters_of_filter (l : list Row) :
  clusters_of l
  = filter (fun c => negb (c =? -1)%Z) (unique Z.eqb (map cluster l)).
Proof.
  unfold clusters_of.
  rewrite (filter_unique Z.eqb Z.eqb_eq), filter_map_comm. reflexivity.
Qed.

Lemma count_clusters_spec (l : list Row) :
  count_clusters (map cluster l) = Z.of_nat (List.length (clusters_of l)).
Proof.
  unfold count_clusters, contains. rewrite clusters_of_filter.
  rewrite (length_without (-1) (unique Z.eqb (map cluster l)))
    by (apply NoDup_unique; apply Z.eqb_eq).
  rewrite existsb_unique.
  destruct (existsb (Z.eqb (-1)) (map cluster l)); lia.
Qed.

Lemma ts_min_spec (rest : list Timestamp) :
  forall first,
    In (ts_min first rest) (first :: rest) /\
    forall t, In t (first :: rest) -> (instant (ts_min first rest) <= instant t)%Z.
Proof.
  unfold ts_min. induction rest as [| x xs IH]; intros first; simpl.
  - split; [auto |]. intros t [<- | []]. lia.
  - destruct (instant x <? instant first)%Z eqn:E;
      [apply Z.ltb_lt in E | apply Z.ltb_ge in E].
    + destruct (IH x) as [Hin Hle]. split; [right; exact Hin |].
      intros t [<- | Ht]; [| apply Hle; exact Ht].
      pose proof (Hle x (or_introl eq_refl)). lia.
    + destruct (IH first) as [Hin Hle]. split.
      * destruct Hin as [Hin | Hin]; [left; exact Hin | right; right; exact Hin].
      * intros t [<- | [<- | Ht]].
        -- apply Hle. left. reflexivity.
        -- pose proof (Hle first (or_introl eq_refl)). lia.
        -- apply Hle. right. exact Ht.
Qed.

Lemma ts_max_spec (rest : list Timestamp) :
  forall first,
    In (ts_max first rest) (first :: rest) /\
    forall t, In t (first :: rest) -> (instant t <= instant (ts_max first rest))%Z.
Proof.
  unfold ts_max. induction rest as [| x xs IH]; intros first; simpl.
  - split; [auto |]. intros t [<- | []]. lia.
  - destruct (instant first <? instant x)%Z eqn:E;
      [apply Z.ltb_lt in E | apply Z.ltb_ge in E].
    + destruct (IH x) as [Hin Hle]. split; [right; exact Hin |].
      intros t [<- | Ht]; [| apply Hle; exact Ht].
      pose proof (Hle x (or_introl eq_refl)). lia.
    + destruct (IH first) as [Hin Hle]. split.
      * destruct Hin as [Hin | Hin]; [left; exact Hin | right; right; exact Hin].
      * intros t [<- | [<- | Ht]].
        -- apply Hle. left. reflexivity.
        -- pose proof (Hle first (or_introl eq_refl)). lia.
        -- apply Hle. right. exact Ht.
Qed.

(** X4: in a user's result, [clusters_involved] is the number of the user's
    cluster predictions, and [time_range] names two of the user's events
    such that every event of the user lies between them in time. *)
Theorem user_result_bookkeeping :
  forall clock ud k ur k',
    process_user_data clock ud event_weights k = inr (ur, k') ->
    clusters_involved ur = Z.of_nat (List.length (cluster_predictions ur)) /\
    exists first last,
      time_range ur = Some (first, last)
      /\ In first (map timestamp (rows ud))
      /\ In last (map timestamp (rows ud))
      /\ forall ev, In ev (rows ud) ->
                    (instant first <= instant (timestamp ev) <= instant last)%Z.
Proof.
  intros clock ud k ur k' Hrun.
  apply process_user_data_inr in Hrun.
  destruct Hrun as (_ & _ & r & t & Hrows & ->). simpl.
  split; [rewrite length_map; apply count_clusters_spec |].
  rewrite Hrows. simpl.
  destruct (ts_min_spec (map timestamp t) (timestamp r)) as [Hmin Hle].
  destruct (ts_max_spec (map timestamp t) (timestamp r)) as [Hmax Hge].
  eexists. eexists. split; [reflexivity |].
  split; [exact Hmin |]. split; [exact Hmax |].
  intros ev Hev.
  assert (In (timestamp ev) (timestamp r :: map timestamp t)) as Hin.
  { destruct Hev as [<- | Hev]; [left; reflexivity | right; apply in_map; exact Hev]. }
  split; [apply Hle | apply Hge]; exact Hin.
Qed.

(** U1, with events in two clusters, is involved in two clusters. *)
Lemma bookkeeping_of_two_places :
  clusters_involved (user_result_of (Sample.hours 1000) Sample.two_places "U1")
  = Z.of_nat
      (List.length
         (cluster_predictions
            (user_result_of (Sample.hours 1000) Sample.two_places "U1"))).
Proof.
  apply (proj1 (user_result_bookkeeping (Sample.clock_at 1000) Sample.two_places
                  0%nat _ 1%nat eq_refl)).
Defined.

(** ** Cluster information *)

Lemma flat_map_keep {A B} (keep : A -> bool) (g : A -> B) (l : list A) :
  flat_map (fun x => match (if keep x then Some (g x) else None) with
                     | Some y => [y]
                     | None => []
                     end) l
  = map g (filter keep l).
Proof.
  induction l as [| x t IH]; simpl; [reflexivity |].
  destruct (keep x); simpl; congruence.
Qed.

Lemma get_cluster_info_run (df : DataFrame) k :
  has_event_type df = true ->
  get_cluster_info df k
  = inr (map (info_of (rows df)) (clusters_of (rows df)), k).
Proof.
  intros Hcol. unfold get_cluster_info.
  rewrite (for_each_run _
             (fun cid => if negb (cid =? -1)%Z
                         then Some (info_of (rows df) cid) else None)).
  - rewrite flat_map_keep, clusters_of_filter. reflexivity.
  - intros cid k' _. unfold cluster_info_of.
    destruct (cid =? -1)%Z; [reflexivity |].
    unfold column_event_type. simpl has_event_type. rewrite Hcol.
    erewrite bind_run by reflexivity. reflexivity.
Qed.






Lemma get_cluster_info_inr (df : DataFrame) k info k' :
  get_cluster_info df k = inr (info, k') ->
  info = map (info_of (rows df)) (clusters_of (rows df)).
Proof.
  destruct (has_event_type df) eqn:Hcol.
  - rewrite (get_cluster_info_run df k Hcol). intros H. injection H as <- <-.
    reflexivity.
  - unfold get_cluster_info.
    rewrite (for_each_skip _ (fun cid => negb (cid =? -1)%Z)).
    + rewrite <- clusters_of_filter.
      destruct (clusters_of (rows df)) as [| c cs] eqn:E.
      * simpl. intros H. injection H as <- <-. reflexivity.
      * assert (c <> (-1)%Z) as Hc.
        { assert (In c (clusters_of (rows df))) as Hin by (rewrite E; left; reflexivity).
          apply in_clusters_of in Hin. destruct Hin as (_ & _ & _ & Hn). exact Hn. }
        simpl. rewrite (bind_fail _ _ _ (KeyError "event_type")); [discriminate |].
        unfold cluster_info_of. rewrite (proj2 (Z.eqb_neq _ _) Hc).
        apply bind_fail. unfold column_event_type. cbn [has_event_type select].
        rewrite Hcol. reflexivity.
    + intros cid k0 Hcid. apply negb_false_iff in Hcid.
      unfold cluster_info_of. rewrite Hcid. reflexivity.
Qed.



(** ** Anomalies *)

Lemma for_each_option_list {A B} (body : A -> M (option B)) (h : A -> option B) l k :
  (forall x k', In x l -> body x k' = inr (h x, k')) ->
  for_each body l k = inr (flat_map (fun x => option_list (h x)) l, k).
Proof. apply for_each_run. Qed.

Lemma detect_anomalies_inr (df : DataFrame) k found k' :
  detect_anomalies df k = inr (found, k') ->
  found
  = (flat_map (fun uid => option_list (user_anomaly (rows df) uid))
              (users_of (rows df))
     ++ flat_map (fun cid => option_list (cluster_anomaly (rows df) cid))
                 (clusters_of (rows df)))%list.
Proof.
  unfold detect_anomalies.
  erewrite bind_run; cycle 1.
  { apply (for_each_option_list _ (user_anomaly (rows df))).
    intros uid k0 _. unfold user_anomaly. cbn [rows select].
    destruct (_ && _); reflexivity. }
  unfold bind at 1.
  rewrite (for_each_skip _ (fun cid => negb (cid =? -1)%Z)); cycle 1.
  { intros cid k0 Hcid. apply negb_false_iff in Hcid. rewrite Hcid. reflexivity. }
  rewrite <- clusters_of_filter.
  destruct (has_event_type df) eqn:Hcol.
  - rewrite (for_each_option_list _ (cluster_anomaly (rows df))).
    + intros H. injection H as <- <-. reflexivity.
    + intros cid k0 Hcid. apply in_clusters_of in Hcid.
      destruct Hcid as (_ & _ & _ & Hn).
      rewrite (proj2 (Z.eqb_neq _ _) Hn).
      unfold column_event_type. cbn [has_event_type select rows]. rewrite Hcol.
      erewrite bind_run by reflexivity.
      unfold cluster_anomaly.
      change (fun r : Row => (cluster r =? cid)%Z) with (in_cluster cid).
      destruct (_ && _); reflexivity.
  - destruct (clusters_of (rows df)) as [| c cs] eqn:E.
    + simpl. intros H. injection H as <- <-. reflexivity.
    + assert (c <> (-1)%Z) as Hc.
      { assert (In c (clusters_of (rows df))) as Hin by (rewrite E; left; reflexivity).
        apply in_clusters_of in Hin. destruct Hin as (_ & _ & _ & Hn). exact Hn. }
      simpl for_each.
      rewrite (bind_fail _ _ _ (KeyError "event_type")); [discriminate |].
      rewrite (proj2 (Z.eqb_neq _ _) Hc).
      apply bind_fail. unfold column_event_type. cbn [has_event_type select].
      rewrite Hcol. reflexivity.
Qed.

Lemma in_option_list {A} (o : option A) (y : A) : In y (option_list o) <-> o = Some y.
Proof.
  destruct o; simpl; split; try congruence; try tauto.
  - intros [-> | []]. reflexivity.
  - intros H. injection H as ->. auto.
Qed.

Lemma length_filter_zero {A} (p : A -> bool) (l : list A) :
  List.length (filter p l) = 0%nat <-> forall x, In x l -> p x = false.
Proof.
  induction l as [| a t IH]; simpl.
  - split; [intros _ x [] | reflexivity].
  - destruct (p a) eqn:E; simpl.
    + split; [discriminate |]. intros H. specialize (H a (or_introl eq_refl)).
      congruence.
    + rewrite IH. split.
      * intros H x [<- | Hx]; auto.
      * intros H x Hx. apply H. auto.
Qed.

(** X6: when [detect_anomalies] returns, it reports [no_clusters] for
    exactly the users with five or more events none of which lies in a
    cluster, with the number of the user's events. *)
Theorem no_clusters_anomaly :
  forall df k found k',
    detect_anomalies df k = inr (found, k') ->
    forall uid n,
      In (no_clusters uid n) found <->
      (In uid (map user_id (rows df))
       /\ n = List.length (filter (of_user uid) (rows df))
       /\ (5 <= n)%nat
       /\ forall r, In r (rows df) -> user_id r = uid -> cluster r = (-1)%Z).
Proof.
  intros df k found k' Hrun uid n.
  apply detect_anomalies_inr in Hrun. subst found.
  rewrite in_app_iff, !in_flat_map. split.
  - intros [(u & Hu & Hin) | (c & _ & Hin)].
    + apply in_option_list in Hin. unfold user_anomaly in Hin.
      destruct (_ && _) eqn:E; [| discriminate].
      injection Hin as -> <-.
      apply andb_true_iff in E. destruct E as [E5 E0].
      apply Nat.leb_le in E5. apply Nat.eqb_eq in E0.
      split; [apply (proj1 (in_unique String.eqb String.eqb_eq _ _) Hu) |].
      split; [reflexivity |]. split; [exact E5 |].
      intros r Hr Hid.
      pose proof (proj1 (length_filter_zero _ _) E0 r) as Hz.
      assert (not_noise r = false) as Hnn.
      { apply Hz. apply filter_In. split; [exact Hr |].
        unfold of_user. apply String.eqb_eq. exact Hid. }
      unfold not_noise in Hnn. apply negb_false_iff, Z.eqb_eq in Hnn. exact Hnn.
    + apply in_option_list in Hin. unfold cluster_anomaly in Hin.
      destruct (_ && _); discriminate.
  - intros (Hu & -> & H5 & Hall). left. exists uid.
    split; [apply (in_unique String.eqb String.eqb_eq); exact Hu |].
    apply in_option_list. unfold user_anomaly.
    rewrite (proj2 (Nat.leb_le _ _) H5).
    assert (List.length (filter not_noise (filter (of_user uid) (rows df))) = 0%nat) as ->.
    { apply length_filter_zero. intros r Hr. apply filter_In in Hr.
      destruct Hr as [Hr Hid]. unfold of_user in Hid. apply String.eqb_eq in Hid.
      unfold not_noise. rewrite (Hall r Hr Hid). reflexivity. }
    reflexivity.
Qed.

(** X7: when [detect_anomalies] returns, it reports [mixed_event_cluster]
    for exactly the non-noise clusters whose events are of more than two
    distinct kinds, [upi] among them, and lists those kinds; a missing event
    type counts as a kind of its own. *)
Theorem mixed_event_cluster_anomaly :
  forall df k found k',
    detect_anomalies df k = inr (found, k') ->
    forall cid types,
      In (mixed_event_cluster cid types) found <->
      (cid <> (-1)%Z
       /\ (exists r, In r (rows df) /\ cluster r = cid)
       /\ types = unique option_string_eqb
                    (map event_type (filter (in_cluster cid) (rows df)))
       /\ In (Some "upi") types
       /\ (2 < List.length types)%nat).
Proof.
  intros df k found k' Hrun cid types.
  apply detect_anomalies_inr in Hrun. subst found.
  rewrite in_app_iff, !in_flat_map. split.
  - intros [(u & _ & Hin) | (c & Hc & Hin)].
    + apply in_option_list in Hin. unfold user_anomaly in Hin.
      destruct (_ && _); discriminate.
    + apply in_option_list in Hin. unfold cluster_anomaly in Hin.
      destruct (_ && _) eqn:E; [| discriminate].
      injection Hin as -> <-.
      apply andb_true_iff in E. destruct E as [Eupi Elen].
      apply Nat.ltb_lt in Elen.
      apply in_clusters_of in Hc. destruct Hc as (r & Hr & Hcl & Hn).
      split; [exact Hn |]. split; [exists r; auto |].
      split; [reflexivity |]. split; [| exact Elen].
      unfold contains in Eupi. apply existsb_exists in Eupi.
      destruct Eupi as (x & Hx & Hxe).
      unfold option_string_eqb in Hxe. destruct x as [s |]; [| discriminate].
      apply String.eqb_eq in Hxe. subst s. exact Hx.
  - intros (Hn & (r & Hr & Hcl) & -> & Hupi & Hlen). right. exists cid.
    split; [apply in_clusters_of; exists r; auto |].
    apply in_option_list. unfold cluster_anomaly.
    rewrite (proj2 (Nat.ltb_lt _ _) Hlen).
    assert (contains option_string_eqb (Some "upi")
              (unique option_string_eqb
                 (map event_type (filter (in_cluster cid) (rows df)))) = true) as ->.
    { unfold contains. apply existsb_exists. exists (Some "upi").
      split; [exact Hupi |]. unfold option_string_eqb. apply String.eqb_refl. }
    reflexivity.
Qed.

(** Six scattered events of one user are reported. *)
Lemma six_scattered_reported :
  In (no_clusters "U3" 6) [no_clusters "U3" 6].
Proof.
  apply (proj2 (no_clusters_anomaly Sample.six_scattered 0%nat
                  [no_clusters "U3" 6] 0%nat eq_refl "U3" 6%nat)).
  split; [left; reflexivity |]. split; [reflexivity |]. split; [lia |].
  intros r Hr _. simpl in Hr.
  repeat (destruct Hr as [<- | Hr]; [reflexivity |]). contradiction.
Defined.

(** A place with a payment, a login and an app opening is reported. *)
Lemma busy_place_reported :
  In (mixed_event_cluster 0 [Some "upi"; Some "login"; Some "app_open"])
     [mixed_event_cluster 0 [Some "upi"; Some "login"; Some "app_open"]].
Proof.
  apply (proj2 (mixed_event_cluster_anomaly Sample.busy_place 0%nat
                  [mixed_event_cluster 0 [Some "upi"; Some "login"; Some "app_open"]]
                  0%nat eq_refl 0%Z
                  [Some "upi"; Some "login"; Some "app_open"])).
  split; [discriminate |]. split.
  { exists (Sample.row "U1" "upi" 1000 12.900 77.590 0).
    split; [left; reflexivity | reflexivity]. }
  split; [reflexivity |]. split; [left; reflexivity | simpl; lia].
Defined.

(** ** The report as a whole *)

Lemma in_filter_of_user (l : list Row) (uid : string) (r : Row) :
  In r (filter (of_user uid) l) -> user_id r = uid.
Proof.
  intros H. apply filter_In in H. destruct H as [_ H].
  apply String.eqb_eq. exact H.
Qed.

(** Every part of the report of a successful run, in terms of the data
    frame. *)
Lemma analyse_report clock fit_predict events k r k' :
  analyse clock fit_predict events k = inr (r, k') ->
  exists df,
    set_cluster events
      (fit_predict (map (fun e => (raw_lat e, raw_lon e)) events)) k
    = inr (df, k)
    /\ has_event_type df = true
    /\ Forall2 (fun uid ur =>
                  exists j, ur = user_result_of (clock j) (select (of_user uid) df) uid)
               (users_of (rows df)) (user_results r)
    /\ total_users (summary r) = List.length (users_of (rows df))
    /\ summary_total_events (summary r) = List.length (rows df)
    /\ total_clusters (summary r) = count_clusters (map cluster (rows df))
    /\ noise_points (summary r)
       = List.length (filter (fun x => (cluster x =? -1)%Z) (rows df))
    /\ event_distribution (summary r) = value_counts (map event_type (rows df))
    /\ cluster_distribution (summary r)
       = (if (0 <? count_clusters (map cluster (rows df)))%Z
          then value_counts_Z (map cluster (filter not_noise (rows df)))
          else [])
    /\ summary_confidence (summary r) = calculate_overall_confidence (user_results r)
    /\ (exists ka ka', detect_anomalies df ka = inr (anomalies (summary r), ka'))
    /\ (exists ki ki', get_cluster_info df ki = inr (cluster_info r, ki'))
    /\ (exists kp kp',
          generate_location_predictions clock df (user_results r) kp
          = inr (location_predictions r, kp')).
Proof.
  unfold analyse. intros H.
  run_inv H. rename a into df.
  pose proof (set_cluster_inr _ _ _ _ _ Hrun) as (-> & _).
  run_inv H. rename a into results.
  run_inv H. rename a into types. run_inv H. run_inv H. run_inv H. run_inv H.
  run_inv H. subst r. cbn [summary user_results cluster_info location_predictions
    total_users summary_total_events total_clusters noise_points
    event_distribution cluster_distribution summary_confidence anomalies].
  assert (has_event_type df = true /\ types = map event_type (rows df)) as [Hcol ->].
  { unfold column_event_type in Hrun1.
    destruct (has_event_type df); [| discriminate].
    injection Hrun1 as <- _. auto. }
  exists df. split; [exact Hrun |]. split; [exact Hcol |]. split.
  { unfold users_of.
    eapply Forall2_impl; [| eapply mapM_inr; exact Hrun0].
    intros uid ur (j1 & j2 & Hud).
    apply process_user_data_inr in Hud.
    destruct Hud as (_ & _ & r0 & t0 & Hrows & ->). exists j1.
    assert (user_id r0 = uid) as ->; [| reflexivity].
    apply (in_filter_of_user (rows df)).
    change (filter (of_user uid) (rows df)) with (rows (select (of_user uid) df)).
    rewrite Hrows. left. reflexivity. }
  repeat (split; [reflexivity |]).
  split; [eauto |]. split; [eauto |]. eauto.
Qed.

Lemma report_inv clock fit_predict events r :
  process_kalman_cluster_fusion clock fit_predict events = Report r ->
  events <> [] /\ exists k', analyse clock fit_predict events 0%nat = inr (r, k').
Proof.
  unfold process_kalman_cluster_fusion.
  destruct events as [| e t]; [discriminate |].
  destruct (analyse clock fit_predict (e :: t) 0%nat) as [x | [r' k']];
    [discriminate |].
  intros H. injection H as ->. split; [discriminate | eauto].
Qed.

(** *** Counting by key *)

Section CountByKey.

Context {A K : Type} (eqb : K -> K -> bool) (key : A -> K).
Hypothesis eqb_eq : forall x y, eqb x y = true <-> x = y.

Lemma sum_indicator (x : K) (keys : list K) :
  NoDup keys -> In x keys ->
  list_sum (map (fun u => if eqb x u then 1 else 0)%nat keys) = 1%nat.
Proof.
  induction 1 as [| a t Ha Ht IH]; simpl; [contradiction |].
  intros [-> | Hx].
  - rewrite (proj2 (eqb_eq x x) eq_refl). f_equal.
    clear IH Ht. induction t as [| b t IH]; simpl; [reflexivity |].
    destruct (eqb x b) eqn:E.
    + apply eqb_eq in E. subst b. exfalso. apply Ha. left. reflexivity.
    + apply IH. intros H. apply Ha. right. exact H.
  - destruct (eqb x a) eqn:E.
    + apply eqb_eq in E. subst a. contradiction.
    + simpl. apply IH. exact Hx.
Qed.

Lemma sum_by_key (keys : list K) (l : list A) :
  NoDup keys ->
  (forall a, In a l -> In (key a) keys) ->
  list_sum (map (fun u => List.length (filter (fun a => eqb (key a) u) l)) keys)
  = List.length l.
Proof.
  intros Hnd. induction l as [| a t IH]; intros Hin.
  - simpl. clear. induction keys; simpl; auto.
  - assert (forall u,
               List.length (filter (fun a0 => eqb (key a0) u) (a :: t))
               = ((if eqb (key a) u then 1 else 0)
                  + List.length (filter (fun a0 => eqb (key a0) u) t))%nat) as E.
    { intros u. simpl. destruct (eqb (key a) u); reflexivity. }
    rewrite (map_ext _ _ E).
    assert (forall (f g : K -> nat) (ks : list K),
               list_sum (map (fun u => f u + g u)%nat ks)
               = (list_sum (map f ks) + list_sum (map g ks))%nat) as Hsum.
    { intros f g ks. induction ks; simpl; lia. }
    rewrite Hsum, IH by (intros; apply Hin; right; assumption).
    rewrite sum_indicator; [reflexivity | exact Hnd |].
    apply Hin. left. reflexivity.
Qed.

End CountByKey.

(** ** Users of a batch *)

Lemma user_results_shape (clock : nat -> Z) (df : DataFrame) (us : list string) (urs : list UserResult) :
  Forall2 (fun uid ur =>
             exists j, ur = user_result_of (clock j) (select (of_user uid) df) uid)
          us urs ->
  map ur_user_id urs = us /\
  map total_events urs
  = map (fun uid => List.length (filter (of_user uid) (rows df))) us.
Proof.
  induction 1 as [| uid ur us urs (j & ->) _ [IH1 IH2]]; simpl.
  - split; reflexivity.
  - rewrite IH1, IH2. split; reflexivity.
Qed.

Lemma count_occ_by_key {A} (key : A -> string) (l : list A) (u : string) :
  count_occ string_dec (map key l) u
  = List.length (filter (fun a => String.eqb (key a) u) l).
Proof.
  induction l as [| a t IH]; simpl; [reflexivity |].
  destruct (string_dec (key a) u) as [E | E].
  - rewrite (proj2 (String.eqb_eq _ _) E). simpl. congruence.
  - rewrite (proj2 (String.eqb_neq _ _) E). exact IH.
Qed.

(** X8: a report has one user result per distinct [user_id] of the batch,
    in order of first appearance; the [total_events] of a user is the number
    of the batch's records with that [user_id], and the totals of all users
    add up to the size of the batch, which is [summary.total_events]. *)
Theorem user_results_cover_batch :
  forall clock fit_predict events r,
    process_kalman_cluster_fusion clock fit_predict events = Report r ->
    map ur_user_id (user_results r) = unique String.eqb (map raw_user_id events) /\
    total_users (summary r) = List.length (user_results r) /\
    summary_total_events (summary r) = List.length events /\
    list_sum (map total_events (user_results r)) = List.length events /\
    (forall ur, In ur (user_results r) ->
       total_events ur
       = count_occ string_dec (map raw_user_id events) (ur_user_id ur)
       /\ (1 <= total_events ur)%nat).
Proof.
  intros clock fit_predict events r Hrun.
  apply report_inv in Hrun. destruct Hrun as (_ & k' & Hrun).
  apply analyse_report in Hrun.
  destruct Hrun as (df & Hset & _ & Hall & Husers & Htotal & _).
  apply set_cluster_inr in Hset. destruct Hset as (_ & _ & Hlen & Hids).
  destruct (user_results_shape _ _ _ _ Hall) as [Hmap Htot].
  split; [rewrite Hmap; unfold users_of; rewrite Hids; reflexivity |].
  split.
  { rewrite Husers. rewrite <- Hmap at 1. rewrite length_map. reflexivity. }
  split; [congruence |]. split.
  - rewrite Htot, <- Hlen. unfold users_of.
    apply (sum_by_key String.eqb user_id String.eqb_eq).
    + apply NoDup_unique. apply String.eqb_eq.
    + intros a Ha. apply (in_unique String.eqb String.eqb_eq). apply in_map. exact Ha.
  - intros ur Hur.
    destruct (Forall2_in_r _ _ _ ur Hall Hur) as (uid & Huid & j & ->).
    cbn [user_result_of total_events ur_user_id rows select].
    rewrite <- Hids, count_occ_by_key. split; [reflexivity |].
    apply (proj1 (in_unique String.eqb String.eqb_eq _ _)) in Huid.
    destruct (rows_of_user df uid Huid) as (r0 & t0 & Hrows & _).
    cbn [rows select] in Hrows. unfold of_user in Hrows.
    unfold of_user. rewrite Hrows. simpl. lia.
Qed.

(** The batch of U1 and U2 has two user results. *)
Lemma user_results_of_mixed_batch :
  exists r,
    process_kalman_cluster_fusion (Sample.clock_at 1000) Sample.mixed_labels
      Sample.mixed_batch = Report r
    /\ map ur_user_id (user_results r) = ["U1"; "U2"].
Proof.
  eexists. split; [lazy; reflexivity |].
  apply (proj1 (user_results_cover_batch (Sample.clock_at 1000)
                  Sample.mixed_labels Sample.mixed_batch _ eq_refl)).
Defined.

(** ** Counts of the summary *)

Lemma count_occ_Z_by_key {A} (key : A -> Z) (l : list A) (u : Z) :
  count_occ Z.eq_dec (map key l) u
  = List.length (filter (fun a => (key a =? u)%Z) l).
Proof.
  induction l as [| a t IH]; simpl; [reflexivity |].
  destruct (Z.eq_dec (key a) u) as [E | E].
  - rewrite (proj2 (Z.eqb_eq _ _) E). simpl. congruence.
  - rewrite (proj2 (Z.eqb_neq _ _) E). exact IH.
Qed.

Lemma length_filter_split {A} (p : A -> bool) (l : list A) :
  (List.length (filter p l) + List.length (filter (fun x => negb (p x)) l))%nat
  = List.length l.
Proof.
  induction l as [| a t IH]; simpl; [reflexivity |].
  destruct (p a); simpl; lia.
Qed.

Lemma cluster_distribution_entries (l : list Row) :
  (if (0 <? count_clusters (map cluster l))%Z
   then value_counts_Z (map cluster (filter not_noise l))
   else [])
  = map (fun cid => (cid, List.length (filter (in_cluster cid) l))) (clusters_of l).
Proof.
  rewrite count_clusters_spec.
  destruct (clusters_of l) as [| c cs] eqn:E.
  - reflexivity.
  - change (0 <? Z.of_nat (List.length (c :: cs)))%Z with true. cbv iota.
    rewrite <- E. unfold value_counts_Z.
    change (unique Z.eqb (map cluster (filter not_noise l))) with (clusters_of l).
    apply map_ext_in. intros cid Hcid. f_equal.
    rewrite count_occ_Z_by_key.
    apply in_clusters_of in Hcid. destruct Hcid as (_ & _ & _ & Hn).
    change (fun a : Row => (cluster a =? cid)%Z) with (in_cluster cid).
    rewrite (members_not_noise cid l Hn). reflexivity.
Qed.

(** X9: in a report, [summary.total_clusters] is the number of entries of
    [cluster_info]; [summary.cluster_distribution] gives for every cluster of
    [cluster_info], and for nothing else, its [event_count]; and the noise
    points and the counts of [cluster_distribution] add up to the number of
    events. *)
Theorem cluster_counts_agree :
  forall clock fit_predict events r,
    process_kalman_cluster_fusion clock fit_predict events = Report r ->
    total_clusters (summary r) = Z.of_nat (List.length (cluster_info r)) /\
    (noise_points (summary r) + total_count (cluster_distribution (summary r)))%nat
    = List.length events /\
    (forall cid n,
        In (cid, n) (cluster_distribution (summary r)) <->
        exists ci, In ci (cluster_info r)
                   /\ ci_cluster_id ci = cid /\ ci_event_count ci = n).
Proof.
  intros clock fit_predict events r Hrun.
  apply report_inv in Hrun. destruct Hrun as (_ & k' & Hrun).
  apply analyse_report in Hrun.
  destruct Hrun as (df & Hset & _ & _ & _ & _ & Hclusters & Hnoise & _ & Hdist
                    & _ & _ & (ki & ki' & Hinfo) & _).
  apply set_cluster_inr in Hset. destruct Hset as (_ & _ & Hlen & _).
  apply get_cluster_info_inr in Hinfo.
  rewrite cluster_distribution_entries in Hdist.
  rewrite Hclusters, Hnoise, Hdist, Hinfo. split; [| split].
  - rewrite length_map. apply count_clusters_spec.
  - unfold total_count. rewrite map_map. cbn [snd].
    rewrite <- Hlen, <- (length_filter_split (fun x => (cluster x =? -1)%Z) (rows df)).
    f_equal.
    change (fun x : Row => negb (cluster x =? -1)%Z) with not_noise.
    rewrite <- (sum_by_key Z.eqb cluster Z.eqb_eq (clusters_of (rows df))
                  (filter not_noise (rows df))).
    + apply f_equal, map_ext_in. intros cid Hcid.
      apply in_clusters_of in Hcid. destruct Hcid as (_ & _ & _ & Hn).
      change (fun a : Row => (cluster a =? cid)%Z) with (in_cluster cid).
      rewrite (members_not_noise cid _ Hn). reflexivity.
    + apply NoDup_unique. apply Z.eqb_eq.
    + intros a Ha. unfold clusters_of.
      apply (in_unique Z.eqb Z.eqb_eq). apply in_map. exact Ha.
  - intros cid n. rewrite in_map_iff. split.
    + intros (c & Hc & Hin). injection Hc as <- <-.
      exists (info_of (rows df) c). split; [apply in_map; exact Hin |].
      split; reflexivity.
    + intros (ci & Hci & <- & <-). apply in_map_iff in Hci.
      destruct Hci as (c & <- & Hc). exists c. split; [reflexivity | exact Hc].
Qed.

(** The batch of U1 and U2 has one cluster and one noise point. *)
Lemma cluster_counts_of_mixed_batch :
  exists r,
    process_kalman_cluster_fusion (Sample.clock_at 1000) Sample.mixed_labels
      Sample.mixed_batch = Report r
    /\ total_clusters (summary r) = Z.of_nat (List.length (cluster_info r)).
Proof.
  eexists. split; [lazy; reflexivity |].
  apply (proj1 (cluster_counts_agree (Sample.clock_at 1000)
                  Sample.mixed_labels Sample.mixed_batch _ eq_refl)).
Defined.

Lemma set_cluster_types events labels k df k' :
  set_cluster events labels k = inr (df, k') ->
  map event_type (rows df) = map raw_event_type events.
Proof.
  unfold set_cluster.
  destruct (List.length labels =? List.length events)%nat eqn:E; [| discriminate].
  apply Nat.eqb_eq in E. intros H. injection H as <- <-. simpl.
  rewrite map_map. simpl.
  clear k. revert labels E. induction events as [| e t IH]; intros labels E.
  - reflexivity.
  - destruct labels as [| c cs]; [discriminate |]. simpl. f_equal.
    apply IH. simpl in E. lia.
Qed.

Lemma length_dropna (col : list (option string)) :
  List.length (dropna col) = List.length (filter is_some col).
Proof.
  induction col as [| [s |] t IH]; simpl; congruence.
Qed.

Lemma total_value_counts (col : list (option string)) :
  total_count (value_counts col) = List.length (dropna col).
Proof.
  unfold total_count, value_counts. rewrite map_map. cbn [snd].
  rewrite <- (sum_by_key String.eqb (fun s : string => s) String.eqb_eq
                (unique String.eqb (dropna col)) (dropna col)).
  - apply f_equal, map_ext. intros u.
    rewrite <- (map_id (dropna col)) at 1. apply count_occ_by_key.
  - apply NoDup_unique. apply String.eqb_eq.
  - intros a Ha. apply (in_unique String.eqb String.eqb_eq). exact Ha.
Qed.

(** X10: in a report, the counts of [summary.event_distribution] add up to
    the number of records of the batch that have an [event_type] (a record
    without one is in no count), so to the size of the batch when every
    record has one; each entry counts the records of its type, and no entry
    is zero. *)
Theorem event_distribution_counts_typed :
  forall clock fit_predict events r,
    process_kalman_cluster_fusion clock fit_predict events = Report r ->
    total_count (event_distribution (summary r))
    = List.length (filter is_some (map raw_event_type events)) /\
    ((forall e, In e events -> raw_event_type e <> None) ->
     total_count (event_distribution (summary r)) = List.length events) /\
    (forall type n,
        In (type, n) (event_distribution (summary r)) ->
        n = count_occ string_dec (dropna (map raw_event_type events)) type
        /\ (1 <= n)%nat).
Proof.
  intros clock fit_predict events r Hrun.
  apply report_inv in Hrun. destruct Hrun as (_ & k' & Hrun).
  apply analyse_report in Hrun.
  destruct Hrun as (df & Hset & _ & _ & _ & _ & _ & _ & Hdist & _).
  apply set_cluster_types in Hset. rewrite Hset in Hdist. rewrite Hdist.
  rewrite total_value_counts, length_dropna.
  split; [reflexivity |]. split.
  - intros Hall. rewrite <- (length_map raw_event_type events).
    f_equal. apply filter_all. intros x Hx.
    apply in_map_iff in Hx. destruct Hx as (e & <- & He).
    specialize (Hall e He). destruct (raw_event_type e); [reflexivity | congruence].
  - intros type n Hin. unfold value_counts in Hin.
    apply in_map_iff in Hin. destruct Hin as (t & Ht & Hin). injection Ht as -> <-.
    split; [reflexivity |].
    apply (proj1 (in_unique String.eqb String.eqb_eq _ _)) in Hin.
    apply (count_occ_In string_dec) in Hin. lia.
Qed.

(** In the batch with an untyped record the distribution counts one event. *)
Lemma event_distribution_of_untyped :
  exists r,
    process_kalman_cluster_fusion (Sample.clock_at 1000) Sample.one_cluster
      Sample.one_untyped = Report r
    /\ total_count (event_distribution (summary r)) = 1%nat.
Proof.
  eexists. split; [lazy; reflexivity |].
  apply (proj1 (event_distribution_counts_typed (Sample.clock_at 1000)
                  Sample.one_cluster Sample.one_untyped _ eq_refl)).
Defined.

(** ** Location predictions *)

Lemma dict_set_fresh {V} (d : list (string * V)) (key : string) (v : V) :
  ~ In key (map fst d) -> dict_set d key v = (d ++ [(key, v)])%list.
Proof.
  induction d as [| [k0 v0] d IH]; simpl; intros H; [reflexivity |].
  destruct (String.eqb k0 key) eqn:E.
  - apply String.eqb_eq in E. exfalso. apply H. left. exact E.
  - rewrite IH; [reflexivity |]. intros Hin. apply H. right. exact Hin.
Qed.

Lemma location_loop_spec clock (df : DataFrame) (us : list string)
    (results : list UserResult) :
  Forall2 (fun uid ur =>
             ur_user_id ur = uid
             /\ total_events ur = List.length (filter (of_user uid) (rows df))
             /\ map we_lat (weighted_events ur)
                = map lat (filter (of_user uid) (rows df))
             /\ map we_lon (weighted_events ur)
                = map lon (filter (of_user uid) (rows df)))
          us results ->
  NoDup us ->
  (forall u, In u us -> In u (map user_id (rows df))) ->
  forall predictions k out k',
    (forall u, In u us -> ~ In u (map fst predictions)) ->
    location_predictions_loop clock df results predictions k = inr (out, k') ->
    exists tail,
      out = (predictions ++ tail)%list
      /\ Forall2 (fun ur ul => fst ul = ur_user_id ur /\ location_of ur (snd ul))
                 results tail.
Proof.
  induction 1 as [| uid ur us urs (Hid & Htot & Hlat & Hlon) _ IH];
    intros Hnd Hin predictions k out k' Hfresh Hrun.
  - simpl in Hrun. injection Hrun as <- _. exists []. rewrite app_nil_r.
    split; [reflexivity | constructor].
  - inversion Hnd as [| ? ? Hnotin Hnd']; subst.
    assert (forall lp u, In u us ->
                         ~ In u (map fst (predictions ++ [(ur_user_id ur, lp)])%list))
      as Hfresh'.
    { intros lp u Hu Hc. rewrite map_app, in_app_iff in Hc.
      destruct Hc as [Hc | [Hc | []]].
      - exact (Hfresh u (or_intror Hu) Hc).
      - simpl in Hc. subst u. contradiction. }
    pose proof (Hfresh (ur_user_id ur) (or_introl eq_refl)) as Hnew.
    simpl in Hrun. unfold location_of.
    destruct (primary_prediction ur) as [pred |] eqn:Hprim.
    + run_inv Hrun. rewrite dict_set_fresh in Hrun by exact Hnew.
      destruct (IH Hnd' (fun u Hu => Hin u (or_intror Hu)) _ _ _ _
                  (Hfresh' _) Hrun) as (tail & -> & Htail).
      eexists (_ :: tail). rewrite <- app_assoc. split; [reflexivity |].
      constructor; [| exact Htail]. simpl. rewrite Hprim. repeat split.
    + destruct (rows_of_user df (ur_user_id ur) (Hin _ (or_introl eq_refl)))
        as (r0 & t0 & Hrows & _).
      cbn [rows select] in Hrows.
      rewrite Hrows in Hrun. simpl in Hrun.
      run_inv Hrun. rewrite dict_set_fresh in Hrun by exact Hnew.
      destruct (IH Hnd' (fun u Hu => Hin u (or_intror Hu)) _ _ _ _
                  (Hfresh' _) Hrun) as (tail & -> & Htail).
      eexists (_ :: tail). rewrite <- app_assoc. split; [reflexivity |].
      constructor; [| exact Htail]. simpl. rewrite Hprim.
      rewrite Hlat, Hlon, Htot, Hrows. repeat split.
Qed.

Lemma user_results_facts (clock : nat -> Z) (df : DataFrame) (us : list string)
    (urs : list UserResult) :
  Forall2 (fun uid ur =>
             exists j, ur = user_result_of (clock j) (select (of_user uid) df) uid)
          us urs ->
  Forall2 (fun uid ur =>
             ur_user_id ur = uid
             /\ total_events ur = List.length (filter (of_user uid) (rows df))
             /\ map we_lat (weighted_events ur)
                = map lat (filter (of_user uid) (rows df))
             /\ map we_lon (weighted_events ur)
                = map lon (filter (of_user uid) (rows df)))
          us urs.
Proof.
  apply Forall2_impl. intros uid ur (j & ->). simpl.
  rewrite !map_map. simpl. auto.
Qed.

Lemma report_locations clock fit_predict events r :
  process_kalman_cluster_fusion clock fit_predict events = Report r ->
  Forall2 (fun ur ul => fst ul = ur_user_id ur /\ location_of ur (snd ul))
          (user_results r) (location_predictions r)
  /\ map ur_user_id (user_results r) = unique String.eqb (map raw_user_id events).
Proof.
  intros Hrun.
  apply report_inv in Hrun. destruct Hrun as (_ & k' & Hrun).
  apply analyse_report in Hrun.
  destruct Hrun as (df & Hset & _ & Hall & _ & _ & _ & _ & _ & _ & _ & _ & _
                    & (kp & kp' & Hloop)).
  apply set_cluster_inr in Hset. destruct Hset as (_ & _ & _ & Hids).
  destruct (user_results_shape _ _ _ _ Hall) as [Hmap _].
  split; [| rewrite Hmap; unfold users_of; rewrite Hids; reflexivity].
  unfold generate_location_predictions in Hloop.
  assert (NoDup (users_of (rows df))) as Hnd
      by (apply NoDup_unique; apply String.eqb_eq).
  assert (forall u, In u (users_of (rows df)) -> In u (map user_id (rows df))) as Hin
      by (intros u Hu; exact (proj1 (in_unique String.eqb String.eqb_eq _ _) Hu)).
  destruct (location_loop_spec clock df (users_of (rows df)) (user_results r)
              (user_results_facts _ _ _ _ Hall) Hnd Hin [] kp
              (location_predictions r) kp' (fun u _ H => H) Hloop)
    as (tail & E & Htail).
  simpl in E. rewrite E. exact Htail.
Qed.

(** X11: a report has exactly one location prediction per user result, in
    the same order and under the user's id.  For a user with a primary
    prediction it restates that prediction as [cluster_based]; for a user
    without one it is [simple_average], with confidence 0.3, no cluster id,
    the count of all the user's events and the plain average of their
    positions, noise events included. *)
Theorem location_predictions_mirror_users :
  forall clock fit_predict events r,
    process_kalman_cluster_fusion clock fit_predict events = Report r ->
    map fst (location_predictions r) = map ur_user_id (user_results r) /\
    Forall2 (fun ur ul => fst ul = ur_user_id ur /\ location_of ur (snd ul))
            (user_results r) (location_predictions r).
Proof.
  intros clock fit_predict events r Hrun.
  destruct (report_locations _ _ _ _ Hrun) as [Hall _].
  split; [| exact Hall].
  clear Hrun. induction Hall as [| ur ul urs uls [Hid _] _ IH]; simpl; congruence.
Qed.

(** The lone login of U2 gets the fallback prediction. *)
Lemma location_of_lone_login :
  exists r,
    process_kalman_cluster_fusion (Sample.clock_at 1000) Sample.all_noise
      Sample.lone_login = Report r
    /\ map fst (location_predictions r) = map ur_user_id (user_results r).
Proof.
  eexists. split; [lazy; reflexivity |].
  apply (proj1 (location_predictions_mirror_users (Sample.clock_at 1000)
                  Sample.all_noise Sample.lone_login _ eq_refl)).
Defined.

(** ** Looking a user up *)

Lemma dict_find_some {V} (d : list (string * V)) (key : string) (v : V) :
  NoDup (map fst d) -> (dict_find d key = Some v <-> In (key, v) d).
Proof.
  induction d as [| [k0 v0] d IH]; simpl; intros Hnd.
  - split; [discriminate | contradiction].
  - inversion Hnd as [| ? ? Hnotin Hnd']; subst.
    destruct (String.eqb k0 key) eqn:E.
    + apply String.eqb_eq in E. subst k0. split.
      * intros H. injection H as ->. left. reflexivity.
      * intros [H | H]; [congruence |].
        exfalso. apply Hnotin. apply in_map_iff. exists (key, v). auto.
    + apply String.eqb_neq in E. rewrite (IH Hnd'). split.
      * intros H. right. exact H.
      * intros [H | H]; [congruence | exact H].
Qed.

Lemma dict_find_key {V} (d : list (string * V)) (key : string) :
  In key (map fst d) <-> exists v, dict_find d key = Some v.
Proof.
  induction d as [| [k0 v0] d IH]; simpl.
  - split; [contradiction | intros (v & H); discriminate].
  - destruct (String.eqb k0 key) eqn:E.
    + apply String.eqb_eq in E. split; [eauto | auto].
    + apply String.eqb_neq in E. rewrite <- IH. split; [| auto].
      intros [H | H]; [congruence | exact H].
Qed.

(** X12: [get_user_prediction] on a report finds a prediction for exactly
    the users that have a record in the batch, and what it finds for a user
    is the user's entry of [location_predictions]; on an error dict, and on
    no results at all, it finds nothing. *)
Theorem get_user_prediction_finds_batch_users :
  forall clock fit_predict events r,
    process_kalman_cluster_fusion clock fit_predict events = Report r ->
    (forall uid,
        In uid (map raw_user_id events) <->
        exists lp, get_user_prediction uid (Some (Report r)) = Some lp) /\
    (forall uid lp,
        get_user_prediction uid (Some (Report r)) = Some lp <->
        In (uid, lp) (location_predictions r)) /\
    (forall uid msg, get_user_prediction uid (Some (ErrorDict msg)) = None) /\
    (forall uid, get_user_prediction uid None = None).
Proof.
  intros clock fit_predict events r Hrun.
  destruct (report_locations _ _ _ _ Hrun) as [Hall Hids].
  assert (map fst (location_predictions r) = unique String.eqb (map raw_user_id events))
    as Hkeys.
  { rewrite <- Hids. clear Hrun Hids.
    induction Hall as [| ur ul urs uls [Hid _] _ IH]; simpl; congruence. }
  split; [| split; [| split; reflexivity]].
  - intros uid. simpl. rewrite <- dict_find_key, Hkeys.
    symmetry. apply (in_unique String.eqb String.eqb_eq).
  - intros uid lp. simpl. apply dict_find_some. rewrite Hkeys.
    apply NoDup_unique. apply String.eqb_eq.
Qed.

(** U2, whose only event is noise, still has a prediction. *)
Lemma prediction_for_lone_login :
  exists r,
    process_kalman_cluster_fusion (Sample.clock_at 1000) Sample.all_noise
      Sample.lone_login = Report r
    /\ exists lp, get_user_prediction "U2" (Some (Report r)) = Some lp.
Proof.
  eexists. split; [lazy; reflexivity |].
  apply (proj1 (get_user_prediction_finds_batch_users (Sample.clock_at 1000)
                  Sample.all_noise Sample.lone_login _ eq_refl) "U2").
  left. reflexivity.
Defined.

(** ** Confidence values of a report *)

Lemma max_by_in {A} (key : A -> Q) (rest : list A) :
  forall best, In (max_by key best rest) (best :: rest).
Proof.
  induction rest as [| x t IH]; intros best; simpl; [auto |].
  destruct (IH (if Qltb (key best) (key x) then x else best)) as [H | H]; [| auto].
  rewrite <- H. destruct (Qltb (key best) (key x)); auto.
Qed.

Lemma closed_form_confidences now (ud : DataFrame) (uid : string) (p : ClusterPrediction) :
  In p (cluster_predictions (user_result_of now ud uid)) ->
  0.5 <= confidence p <= 1.
Proof.
  simpl. intros Hp. apply in_map_iff in Hp. destruct Hp as (cid & <- & Hcid).
  pose proof (members_nonempty _ _ Hcid) as Hne.
  unfold prediction_of. cbn [confidence]. apply mean_bounds.
  - unfold base_weights. intros E. apply map_eq_nil in E. contradiction.
  - unfold base_weights. apply Forall_map, Forall_forall. intros r _.
    apply weight_get_bounds.
Qed.

Lemma closed_form_primary now (ud : DataFrame) (uid : string) (p : ClusterPrediction) :
  primary_prediction (user_result_of now ud uid) = Some p ->
  In p (cluster_predictions (user_result_of now ud uid)).
Proof.
  simpl. destruct (map (prediction_of (rows ud)) (clusters_of (rows ud)))
    as [| p0 rest]; simpl; [discriminate |].
  intros H. injection H as <-. apply max_by_in.
Qed.

(** X13: every confidence value of a report lies in [0,1]: that of a
    cluster prediction between 0.5 and 1, that of a location prediction
    0.3 or between 0.5 and 1, and the overall confidence of the summary
    between 0 and 1. *)
Theorem report_confidences_in_range :
  forall clock fit_predict events r,
    process_kalman_cluster_fusion clock fit_predict events = Report r ->
    0 <= summary_confidence (summary r) <= 1 /\
    (forall ur p, In ur (user_results r) -> In p (cluster_predictions ur) ->
                  0.5 <= confidence p <= 1) /\
    (forall uid lp, In (uid, lp) (location_predictions r) ->
                    lp_confidence lp = 0.3 \/ 0.5 <= lp_confidence lp <= 1).
Proof.
  intros clock fit_predict events r Hrun.
  destruct (report_locations _ _ _ _ Hrun) as [Hloc _].
  apply report_inv in Hrun. destruct Hrun as (_ & k' & Hrun).
  apply analyse_report in Hrun.
  destruct Hrun as (df & Hset & _ & Hall & _ & _ & _ & _ & _ & _ & Hconf & _).
  assert (forall ur, In ur (user_results r) ->
            (forall p, In p (cluster_predictions ur) -> 0.5 <= confidence p <= 1)
            /\ (forall p, primary_prediction ur = Some p -> 0.5 <= confidence p <= 1))
    as Hur.
  { intros ur Hin.
    destruct (Forall2_in_r _ _ _ ur Hall Hin) as (uid & _ & j & ->).
    split; [intros p; apply closed_form_confidences |].
    intros p Hp. apply closed_form_primary in Hp.
    exact (closed_form_confidences _ _ _ _ Hp). }
  split; [| split].
  - rewrite Hconf. unfold calculate_overall_confidence.
    destruct (user_results r) as [| u0 us] eqn:E; [split; Qclosed |].
    rewrite <- E in *. destruct (map confidence_or_zero (user_results r)) eqn:Em.
    { rewrite E in Em. discriminate. }
    rewrite <- Em. apply mean_bounds.
    + rewrite E. discriminate.
    + apply Forall_map, Forall_forall. intros ur Hin.
      unfold confidence_or_zero.
      destruct (primary_prediction ur) as [p |] eqn:Hp; [| split; Qclosed].
      pose proof (proj2 (Hur ur Hin) p Hp). lra.
  - intros ur p Hin. apply (proj1 (Hur ur Hin)).
  - intros uid lp Hin.
    assert (exists ur, In ur (user_results r) /\ location_of ur lp) as (ur & Hin' & Hl).
    { clear - Hloc Hin.
      induction Hloc as [| ur ul urs uls [_ Hl] _ IH]; [contradiction |].
      destruct Hin as [-> | Hin].
      - exists ur. split; [left; reflexivity | exact Hl].
      - destruct (IH Hin) as (ur' & H1 & H2). exists ur'. split; [right |]; assumption. }
    unfold location_of in Hl.
    destruct (primary_prediction ur) as [p |] eqn:Hp.
    + right. destruct Hl as (_ & _ & _ & -> & _). exact (proj2 (Hur ur Hin') p Hp).
    + left. destruct Hl as (_ & _ & _ & -> & _). reflexivity.
Qed.

(** The overall confidence for the batch of U1 and U2 is in range. *)
Lemma confidences_of_mixed_batch :
  exists r,
    process_kalman_cluster_fusion (Sample.clock_at 1000) Sample.mixed_labels
      Sample.mixed_batch = Report r
    /\ 0 <= summary_confidence (summary r) <= 1.
Proof.
  eexists. split; [lazy; reflexivity |].
  apply (proj1 (report_confidences_in_range (Sample.clock_at 1000)
                  Sample.mixed_labels Sample.mixed_batch _ eq_refl)).
Defined.

(** ** The callers of the engine *)

Lemma set_cluster_rows events labels k df k' :
  set_cluster events labels k = inr (df, k') ->
  forall ev, In ev (rows df) ->
             exists e label, In e events /\ ev = make_row e label.
Proof.
  unfold set_cluster.
  destruct (List.length labels =? List.length events)%nat; [| discriminate].
  intros H. injection H as <- <-. simpl. intros ev Hev.
  apply in_map_iff in Hev. destruct Hev as ([e label] & <- & Hin).
  exists e, label. split; [| reflexivity].
  exact (in_combine_l _ _ _ _ Hin).
Qed.

Lemma report_weighted_event clock fit_predict events r ur we :
  process_kalman_cluster_fusion clock fit_predict events = Report r ->
  In ur (user_results r) -> In we (weighted_events ur) ->
  exists e label j,
    In e events /\ we = weighed event_weights (clock j) (make_row e label).
Proof.
  intros Hrun Hur Hwe.
  apply report_inv in Hrun. destruct Hrun as (_ & k' & Hrun).
  apply analyse_report in Hrun. destruct Hrun as (df & Hset & _ & Hall & _).
  destruct (Forall2_in_r _ _ _ ur Hall Hur) as (uid & _ & j & ->).
  simpl in Hwe. apply in_map_iff in Hwe. destruct Hwe as (ev & <- & Hev).
  apply filter_In in Hev. destruct Hev as [Hev _].
  destruct (set_cluster_rows _ _ _ _ _ Hset ev Hev) as (e & label & He & ->).
  exists e, label, j. auto.
Qed.

Lemma night_boost_by_hour (h : Z) :
  (0 <= h < 24)%Z ->
  night_boost_of h
  = if ((22 <=? h) && (h <=? 23) || (0 <=? h) && (h <=? 6))%Z then 1.2 else 1.0.
Proof.
  intros Hh. unfold night_boost_of.
  assert ((h <=? 23)%Z = true) as -> by (apply Z.leb_le; lia).
  assert ((0 <=? h)%Z = true) as -> by (apply Z.leb_le; lia).
  rewrite andb_true_r. reflexivity.
Qed.

(** X14: on the way through [find_user_location] and [find_all_locations],
    which hand every timestamp to [format_timestamp_ist] first, each event
    reaches the engine carrying +05:30, whether it was stored with a time
    zone or without, and gets the night boost by its hour in India Standard
    Time: 1.2 for the hours 22, 23 and 0 to 6, and 1.0 otherwise. *)
Theorem location_callers_boost_by_ist_hour :
  forall clock fit_predict (stored : list UserEvent) r ur we,
    process_kalman_cluster_fusion clock fit_predict (map location_record stored)
    = Report r ->
    In ur (user_results r) -> In we (weighted_events ur) ->
    utcoffset (we_timestamp we) = 19800%Z /\
    hour (we_timestamp we) = ist_hour (we_timestamp we) /\
    night_boost we = spec_night_boost (we_timestamp we).
Proof.
  intros clock fit_predict stored r ur we Hrun Hur Hwe.
  destruct (report_weighted_event _ _ _ _ _ _ Hrun Hur Hwe)
    as (e & label & j & He & ->).
  apply in_map_iff in He. destruct He as (s & <- & _).
  cbn [weighed we_timestamp night_boost make_row timestamp location_record
       raw_timestamp tz_localize_UTC format_timestamp_ist].
  set (ts := format_timestamp_ist (instant (tz_localize_UTC (ue_timestamp s)))).
  assert (hour ts = ist_hour ts) as E by reflexivity.
  split; [reflexivity |]. split; [exact E |].
  unfold spec_night_boost. rewrite <- E.
  apply night_boost_by_hour. apply hour_range.
Qed.

(** A payment stored at 17:00 UTC is boosted on this way: it is 22:30 in
    India. *)
Lemma evening_payment_boosted :
  exists r ur we,
    process_kalman_cluster_fusion (Sample.clock_at 1001) Sample.all_noise
      (map location_record evening_payment) = Report r
    /\ user_results r = [ur]
    /\ weighted_events ur = [we]
    /\ night_boost we = spec_night_boost (we_timestamp we).
Proof.
  do 3 eexists. split; [lazy; reflexivity |].
  split; [reflexivity |]. split; [reflexivity |].
  apply (proj2 (proj2 (location_callers_boost_by_ist_hour (Sample.clock_at 1001)
                         Sample.all_noise evening_payment _ _ _ eq_refl
                         (or_introl eq_refl) (or_introl eq_refl)))).
Defined.

(** ** Accuracy of a prediction *)

Lemma distances_to_located sqrt (pred : LocationPrediction) (events : list Point) :
  distances_to sqrt pred (filter located events) = distances_to sqrt pred events.
Proof.
  induction events as [| e t IH]; simpl; [reflexivity |].
  unfold located at 1. destruct (truthy (pt_lat e) && truthy (pt_lon e)) eqn:E; simpl.
  - rewrite E, IH. reflexivity.
  - exact IH.
Qed.

Lemma distances_to_nil sqrt (pred : LocationPrediction) (events : list Point) :
  distances_to sqrt pred events = [] <-> filter located events = [].
Proof.
  induction events as [| e t IH]; simpl; [tauto |].
  unfold located at 1. destruct (truthy (pt_lat e) && truthy (pt_lon e));
    [split; discriminate | exact IH].
Qed.

Lemma Py_max_0 (x : Q) : Py.max 0 x == Qmax 0 x /\ 0 <= Py.max 0 x.
Proof.
  unfold Py.max. destruct (Qltb 0 x) eqn:E.
  - apply Qltb_lt in E. split; [symmetry; apply Q.max_r | ]; lra.
  - apply Qltb_ge in E. split; [symmetry; apply Q.max_l | ]; lra.
Qed.

Lemma div_tenth (d : Q) : d / 0.1 == d * 10.
Proof. unfold Qdiv. apply Qmult_comp; reflexivity. Qed.

(** X15: [calculate_prediction_accuracy] ignores every event whose latitude
    or longitude is zero: it returns what it returns without them.  Given a
    prediction it returns an accuracy and an average distance; the accuracy
    is never negative; both are 0 when no event is left; otherwise the
    accuracy is [max(0, 1 - avg_distance/0.1)], so at most 1 for a
    non-negative average distance and 0 from 0.1 degrees on.  Without a
    prediction it returns accuracy 0 and confidence 0. *)
Theorem prediction_accuracy_edges :
  forall sqrt events pred,
    calculate_prediction_accuracy sqrt events None = accuracy_confidence 0 0 /\
    calculate_prediction_accuracy sqrt (filter located events) (Some pred)
    = calculate_prediction_accuracy sqrt events (Some pred) /\
    exists a d,
      calculate_prediction_accuracy sqrt events (Some pred) = accuracy_distance a d
      /\ 0 <= a
      /\ (filter located events = [] -> a = 0 /\ d = 0)
      /\ (filter located events <> [] ->
          d = mean (distances_to sqrt pred events)
          /\ a == Qmax 0 (1 - d / 0.1))
      /\ (0 <= d -> a <= 1)
      /\ (0.1 <= d -> a == 0).
Proof.
  intros sqrt events pred. split; [reflexivity |]. split.
  { unfold calculate_prediction_accuracy. rewrite distances_to_located. reflexivity. }
  unfold calculate_prediction_accuracy.
  pose proof (distances_to_nil sqrt pred events) as Hnil.
  destruct (distances_to sqrt pred events) as [| d0 ds].
  - exists 0, 0. split; [reflexivity |]. split; [lra |].
    split; [auto |]. split; [| split; intros; lra].
    intros Hne. exfalso. apply Hne. apply Hnil. reflexivity.
  - set (d := mean (d0 :: ds)).
    destruct (Py_max_0 (1 - d / 0.1)) as [Hmax Hpos].
    pose proof (div_tenth d) as D.
    exists (Py.max 0 (1 - d / 0.1)), d. split; [reflexivity |].
    split; [exact Hpos |]. split.
    { intros E. apply Hnil in E. discriminate. }
    split; [intros _; split; [reflexivity | exact Hmax] |].
    split; intros Hd; rewrite Hmax.
    + apply Q.max_lub; lra.
    + apply Q.max_l. lra.
Qed.

(** Of the three points, the one on the equator does not count. *)
Lemma accuracy_of_three_points :
  exists a d,
    calculate_prediction_accuracy flat_distance three_points (Some predicted_here)
    = accuracy_distance a d
    /\ d = mean (distances_to flat_distance predicted_here three_points)
    /\ a == Qmax 0 (1 - d / 0.1).
Proof.
  destruct (proj2 (proj2 (prediction_accuracy_edges flat_distance three_points
                            predicted_here)))
    as (a & d & Heq & _ & _ & H & _).
  exists a, d. split; [exact Heq |]. apply H. vm_compute. discriminate.
Defined.

(** ** Readings of the clock *)

Lemma mapM_users_nth clock (df : DataFrame) (uids : list string) :
  forall k results k',
    mapM (fun uid => process_user_data clock (select (of_user uid) df) event_weights)
         uids k = inr (results, k') ->
    k' = (k + List.length uids)%nat /\
    List.length results = List.length uids /\
    forall i ur,
      nth_error results i = Some ur ->
      exists uid,
        nth_error uids i = Some uid
        /\ ur = user_result_of (clock (k + i)%nat) (select (of_user uid) df) uid.
Proof.
  induction uids as [| uid t IH]; intros k results k' H; simpl in H.
  - run_inv H. subst. split; [simpl; lia |]. split; [reflexivity |].
    intros i ur Hi. destruct i; discriminate.
  - run_inv H. run_inv H. run_inv H. subst.
    apply process_user_data_inr in Hrun.
    destruct Hrun as (_ & -> & r0 & t0 & Hrows & ->).
    destruct (IH _ _ _ Hrun0) as (-> & Hlen & Hnth).
    split; [simpl; lia |]. split; [simpl; congruence |].
    intros i ur Hi. destruct i as [| i]; simpl in Hi.
    + injection Hi as <-. exists uid. split; [reflexivity |].
      rewrite Nat.add_0_r.
      assert (user_id r0 = uid) as ->; [| reflexivity].
      apply (in_filter_of_user (rows df)).
      change (filter (of_user uid) (rows df)) with (rows (select (of_user uid) df)).
      rewrite Hrows. left. reflexivity.
    + destruct (Hnth i ur Hi) as (u & Hu & ->). exists u. split; [exact Hu |].
      replace (k + S i)%nat with (S k + i)%nat by lia. reflexivity.
Qed.

(** X16: the engine reads the clock once for each user, in the order of the
    user results, and then once more for the summary: the events of the
    [i]-th user are weighed against the [i]-th reading (counting from 0),
    and [processing_timestamp] is the reading after the last user's. *)
Theorem one_clock_reading_per_user :
  forall clock fit_predict events r,
    process_kalman_cluster_fusion clock fit_predict events = Report r ->
    processing_timestamp (summary r)
    = format_timestamp_ist (clock (List.length (user_results r))) /\
    (forall i ur we,
        nth_error (user_results r) i = Some ur ->
        In we (weighted_events ur) ->
        time_decay we = time_decay_of (time_diff_hours (clock i) (we_timestamp we))).
Proof.
  intros clock fit_predict events r Hrun.
  apply report_inv in Hrun. destruct Hrun as (_ & k' & H).
  unfold analyse in H.
  run_inv H. rename a into df.
  pose proof (set_cluster_inr _ _ _ _ _ Hrun) as (-> & _).
  run_inv H. rename a into results.
  apply mapM_users_nth in Hrun0. destruct Hrun0 as (-> & Hlen & Hnth).
  run_inv H. rename a into types.
  match goal with
  | Hc : column_event_type _ _ = inr _ |- _ =>
      unfold column_event_type in Hc;
      destruct (has_event_type df); [| discriminate Hc];
      injection Hc as _ <-
  end.
  run_inv H.
  match goal with
  | Hn : timezone_now _ _ = inr _ |- _ =>
      apply timezone_now_inr in Hn; destruct Hn as (-> & _)
  end.
  run_inv H. run_inv H. run_inv H. run_inv H. subst r.
  cbn [summary user_results processing_timestamp]. split.
  - rewrite Hlen. reflexivity.
  - intros i ur we Hi Hwe.
    destruct (Hnth i ur Hi) as (uid & _ & ->). simpl in Hwe.
    apply in_map_iff in Hwe. destruct Hwe as (ev & <- & _). reflexivity.
Qed.

(** For the batch of U1 and U2 the summary carries the third reading. *)
Lemma clock_readings_of_mixed_batch :
  exists r,
    process_kalman_cluster_fusion (fun k => Sample.hours (1000 + Z.of_nat k))
      Sample.mixed_labels Sample.mixed_batch = Report r
    /\ processing_timestamp (summary r)
       = format_timestamp_ist (Sample.hours (1000 + Z.of_nat (List.length (user_results r)))).
Proof.
  eexists. split; [lazy; reflexivity |].
  apply (proj1 (one_clock_reading_per_user (fun k => Sample.hours (1000 + Z.of_nat k))
                  Sample.mixed_labels Sample.mixed_batch _ eq_refl)).
Defined.
